(** * A ledger of credits and debits scoped by a session cookie

    Shallow embedding of the transactions API (Fastify routes, Zod schemas,
    the Knex store and the environment loader) together with the properties
    its specification states about it.

    Conventions of the embedding:
    - a JavaScript [number] is an IEEE-754 binary64 value, that is Rocq's
      primitive [float]; [amount * -1] is the primitive multiplication;
    - a JavaScript string is a [string] of 8-bit code units;
    - a JavaScript object used as a dictionary ([request.cookies],
      [process.env], a JSON body) is a [gmap] from property names to values;
    - [undefined] is [VUndefined] for JSON-like values and [None] where the
      TypeScript type is [T | undefined];
    - the handlers run in a state-and-exception monad over the world (the
      table, the statements sent to the database, the console, the random
      source) and the reply under construction. *)

From Stdlib Require Import ZArith NArith Floats Ascii String List Bool Lia.
From stdpp Require Import gmap strings list option.

Local Open Scope string_scope.
Local Open Scope list_scope.

(* ===================================================================== *)
(** * JavaScript numbers *)
(* ===================================================================== *)

Module Number.

Definition number := float.

(** [Number.isNaN], [Number.isFinite]. *)
Definition isNaN (x : number) : bool := PrimFloat.is_nan x.
Definition isFinite (x : number) : bool := PrimFloat.is_finite x.

(** [x > 0], [x < 0] and [x <= 0] as JavaScript evaluates them (all
    false on NaN). *)
Definition gt0 (x : number) : bool := (0 <? x)%float.
Definition lt0 (x : number) : bool := (x <? 0)%float.
Definition le0 (x : number) : bool := (x <=? 0)%float.

(** [-1] as a binary64 value: sign bit set, mantissa 2^52, exponent -52. *)
Definition minus_one_SF : spec_float :=
  S754_finite true 4503599627370496 (-52).

(** ** [Number(string)]: the StringToNumber abstract operation *)

Definition code (c : ascii) : N := N_of_ascii c.

(** StrWhiteSpaceChar restricted to 8-bit code units: TAB, LF, VT, FF, CR,
    SP and NBSP. *)
Definition is_StrWhiteSpaceChar (c : ascii) : bool :=
  let n := code c in
  ((9 <=? n) && (n <=? 13) || (n =? 32) || (n =? 160))%N.

Fixpoint trim_start (l : list ascii) : list ascii :=
  match l with
  | c :: r => if is_StrWhiteSpaceChar c then trim_start r else l
  | [] => []
  end.

Definition trim (l : list ascii) : list ascii :=
  rev (trim_start (rev (trim_start l))).

Definition digit_of (base : N) (c : ascii) : option N :=
  let n := code c in
  let v :=
    if ((48 <=? n) && (n <=? 57))%N then Some (n - 48)%N
    else if ((97 <=? n) && (n <=? 102))%N then Some (n - 87)%N
    else if ((65 <=? n) && (n <=? 70))%N then Some (n - 55)%N
    else None in
  match v with
  | Some d => if (d <? base)%N then Some d else None
  | None => None
  end.

(** Reads the longest prefix of digits in [base]; returns the value
    accumulated onto [acc], the number of digits read and the rest. *)
Fixpoint take_digits (base : N) (l : list ascii) (acc : N) (count : nat)
  : N * nat * list ascii :=
  match l with
  | c :: r =>
      match digit_of base c with
      | Some d => take_digits base r (acc * base + d)%N (S count)
      | None => (acc, count, l)
      end
  | [] => (acc, count, [])
  end.

(** The binary64 value nearest to [(-1)^neg * m * 10^e10], ties to even. *)
Definition round_decimal (neg : bool) (m : N) (e10 : Z) : number :=
  SF2Prim
    match m with
    | N0 => S754_zero neg
    | Npos p =>
        match e10 with
        | Zneg k =>
            let '(q, e, l) :=
              SFdiv_core_binary prec emax (Zpos p) 0 (Z.pow 10 (Zpos k)) 0 in
            binary_round_aux prec emax neg q e l
        | _ =>
            match (Zpos p * Z.pow 10 e10)%Z with
            | Zpos q => binary_round prec emax neg q 0
            | _ => S754_nan
            end
        end
    end.

Definition Infinity_chars : list ascii := list_ascii_of_string "Infinity".

(** ExponentPart_opt followed by the end of the literal. *)
Definition exponent_part (l : list ascii) : option Z :=
  match l with
  | [] => Some 0%Z
  | c :: r =>
      if ((code c =? 101) || (code c =? 69))%N then
        let '(neg, r') :=
          match r with
          | s :: r' =>
              if (code s =? 45)%N then (true, r')
              else if (code s =? 43)%N then (false, r')
              else (false, r)
          | [] => (false, r)
          end in
        match take_digits 10 r' 0 0 with
        | (v, S _, []) => Some (if neg then (- Z.of_N v)%Z else Z.of_N v)
        | _ => None
        end
      else None
  end.

(** StrUnsignedDecimalLiteral. *)
Definition unsigned_decimal (neg : bool) (l : list ascii) : number :=
  if bool_decide (l = Infinity_chars) then
    (if neg then neg_infinity else infinity)
  else
    let '(m1, n1, r1) := take_digits 10 l 0 0 in
    let '(m2, n2, r2) :=
      match r1 with
      | c :: r => if (code c =? 46)%N then take_digits 10 r m1 0
                  else (m1, 0%nat, r1)
      | [] => (m1, 0%nat, r1)
      end in
    match (n1 + n2)%nat, exponent_part r2 with
    | S _, Some e => round_decimal neg m2 (e - Z.of_nat n2)
    | _, _ => nan
    end.

(** NonDecimalIntegerLiteral: 0x, 0o, 0b followed by at least one digit. *)
Definition non_decimal (l : list ascii) : option number :=
  match l with
  | z :: p :: r =>
      if (code z =? 48)%N then
        let base :=
          if ((code p =? 120) || (code p =? 88))%N then Some 16%N
          else if ((code p =? 111) || (code p =? 79))%N then Some 8%N
          else if ((code p =? 98) || (code p =? 66))%N then Some 2%N
          else None in
        match base with
        | Some b =>
            Some match take_digits b r 0 0 with
                 | (v, S _, []) => round_decimal false v 0
                 | _ => nan
                 end
        | None => None
        end
      else None
  | _ => None
  end.

Definition StringToNumber (s : string) : number :=
  match trim (list_ascii_of_string s) with
  | [] => 0%float
  | (c :: r) as l =>
      match non_decimal l with
      | Some x => x
      | None =>
          if (code c =? 45)%N then unsigned_decimal true r
          else if (code c =? 43)%N then unsigned_decimal false r
          else unsigned_decimal false l
      end
  end.

End Number.

Export Number(number).

(* ===================================================================== *)
(** * JavaScript values *)
(* ===================================================================== *)

(** The values a parsed JSON document, [process.env] or route parameters
    can hold. *)
#[warnings="-register-all"]
Inductive value : Type :=
  | VUndefined
  | VNull
  | VBool (b : bool)
  | VNum (n : number)
  | VStr (s : string)
  | VArr (items : list value)
  | VObj (props : gmap string value).

(** [obj[key]]: a property that is not there reads as [undefined]. *)
Definition get (props : gmap string value) (key : string) : value :=
  default VUndefined (props !! key).

(** An object all of whose properties are strings ([process.env],
    [request.params]). *)
Definition string_record (m : gmap string string) : value :=
  VObj (VStr <$> m).

(** [Number(v)], the coercion behind [z.coerce.number()]. An array goes
    through its string form, the elements joined by commas: the empty array
    reads as the empty string, a one-element array as its element, and a
    longer one holds a comma, which no numeric literal does. A plain object
    reads as ["[object Object]"]. (The schemas below coerce only the
    strings of [process.env] and the numeric default.) *)
Fixpoint ToNumber (v : value) : number :=
  match v with
  | VUndefined => nan
  | VNull => 0%float
  | VBool b => if b then 1%float else 0%float
  | VNum n => n
  | VStr s => Number.StringToNumber s
  | VObj _ => nan
  | VArr [] => 0%float
  | VArr [x] =>
      match x with
      | VUndefined | VNull => 0%float
      | VBool _ | VObj _ => nan
      | VNum n => if PrimFloat.is_zero n then 0%float else n
      | VStr s => Number.StringToNumber s
      | VArr _ => ToNumber x
      end
  | VArr (_ :: _ :: _) => nan
  end.

(* ===================================================================== *)
(** * Zod schemas *)
(* ===================================================================== *)

Module Zod.

(** [getParsedType]: Zod tells NaN apart from the other numbers. *)
Inductive ZodParsedType :=
  | t_undefined | t_null | t_boolean | t_nan | t_number | t_string
  | t_array | t_object.

Definition getParsedType (data : value) : ZodParsedType :=
  match data with
  | VUndefined => t_undefined
  | VNull => t_null
  | VBool _ => t_boolean
  | VNum n => if Number.isNaN n then t_nan else t_number
  | VStr _ => t_string
  | VArr _ => t_array
  | VObj _ => t_object
  end.

Inductive ZodIssueCode :=
  | invalid_type (expected : string) (received : ZodParsedType)
  | invalid_enum_value (options : list string) (received : string)
  | invalid_string (validation : string).

Record ZodIssue := { code : ZodIssueCode; path : list string }.

(** The outcome of [safeParse]: the issues of every violated field, or
    the parsed data. *)
Inductive SafeParse (A : Type) :=
  | failure (issues : list ZodIssue)
  | success (data : A).
Arguments failure {A} issues.
Arguments success {A} data.

(** A schema maps the path it sits at and the input to a result. *)
Definition ZodType (A : Type) := list string -> value -> SafeParse A.

Definition map_result {A B} (f : A -> B) (r : SafeParse A) : SafeParse B :=
  match r with
  | failure i => failure i
  | success a => success (f a)
  end.

(** Object fields are parsed one after the other and the issues of all
    of them are collected. *)
Definition ap {A B} (rf : SafeParse (A -> B)) (ra : SafeParse A)
  : SafeParse B :=
  match rf, ra with
  | success f, success a => success (f a)
  | success _, failure i => failure i
  | failure i, success _ => failure i
  | failure i, failure j => failure (i ++ j)
  end.

(** [z.string()] *)
Definition string_ : ZodType string := fun path data =>
  match data with
  | VStr s => success s
  | _ => failure [{| code := invalid_type "string" (getParsedType data);
                     path := path |}]
  end.

(** [z.number()]: a number that is not NaN. *)
Definition number_ : ZodType number := fun path data =>
  match data with
  | VNum n =>
      if Number.isNaN n
      then failure [{| code := invalid_type "number" t_nan; path := path |}]
      else success n
  | _ => failure [{| code := invalid_type "number" (getParsedType data);
                     path := path |}]
  end.

(** [z.coerce.number()]: [Number(input)], then [z.number()]. *)
Definition coerce_number : ZodType number := fun path data =>
  number_ path (VNum (ToNumber data)).

(** [util.joinValues]: the options quoted and separated by [" | "]. *)
Fixpoint joinValues (options : list string) : string :=
  match options with
  | [] => ""
  | [o] => "'" ++ o ++ "'"
  | o :: rest => "'" ++ o ++ "' | " ++ joinValues rest
  end.

(** [z.enum([...])]: a string that is one of the options. *)
Definition enum (options : list string) : ZodType string := fun path data =>
  match data with
  | VStr s =>
      if existsb (String.eqb s) options then success s
      else failure [{| code := invalid_enum_value options s; path := path |}]
  | _ => failure [{| code := invalid_type (joinValues options)
                               (getParsedType data);
                     path := path |}]
  end.

(** [schema.default(d)]: [undefined] is replaced by [d] before parsing. *)
Definition default_ {A} (schema : ZodType A) (d : value) : ZodType A :=
  fun path data =>
    schema path match data with VUndefined => d | _ => data end.

Definition is_hex (c : ascii) : bool :=
  match Number.digit_of 16 c with Some _ => true | None => false end.

Definition is_dash (c : ascii) : bool := (Number.code c =? 45)%N.

(** Matches a list of characters against groups of hexadecimal digits of
    the given lengths separated by dashes. *)
Fixpoint hex_groups (groups : list nat) (l : list ascii) : bool :=
  match groups with
  | [] => match l with [] => true | _ => false end
  | n :: rest =>
      forallb is_hex (take n l) && (length (take n l) =? n)%nat &&
      match rest with
      | [] => match drop n l with [] => true | _ => false end
      | _ => match drop n l with
             | c :: l' => is_dash c && hex_groups rest l'
             | [] => false
             end
      end
  end.

(** The [uuid] check of [z.string().uuid()] in Zod 3: 8-4-4-4-12
    hexadecimal digits of either case. *)
Definition uuid_format (s : string) : bool :=
  hex_groups [8; 4; 4; 4; 12]%nat (list_ascii_of_string s).

(** [z.string().uuid()] *)
Definition string_uuid : ZodType string := fun path data =>
  match string_ path data with
  | success s =>
      if uuid_format s then success s
      else failure [{| code := invalid_string "uuid"; path := path |}]
  | failure i => failure i
  end.

(** [z.object({...})]: the input has to be an object (not [null], not an
    array); [shape] then parses the listed keys, other keys are dropped. *)
Definition object {A}
  (shape : list string -> gmap string value -> SafeParse A) : ZodType A :=
  fun path data =>
    match data with
    | VObj props => shape path props
    | _ => failure [{| code := invalid_type "object" (getParsedType data);
                       path := path |}]
    end.

(** The entry [key: schema] of an object shape. *)
Definition field {A} (key : string) (schema : ZodType A)
  (path : list string) (props : gmap string value) : SafeParse A :=
  schema (path ++ [key]) (get props key).

Definition safeParse {A} (schema : ZodType A) (data : value) : SafeParse A :=
  schema [] data.

End Zod.

Notation "f <$$> r" := (Zod.map_result f r) (at level 61, left associativity).
Notation "rf <**> r" := (Zod.ap rf r) (at level 61, left associativity).

(* ===================================================================== *)
(** * Environment loader (env/index.ts) *)
(* ===================================================================== *)

Module Env.

Record t := {
  NODE_ENV : string;
  DATABASE_URL : string;
  DATABASE_CLIENT : string;
  PORT : number
}.

(** [dotenv]'s [config]: the variables of the file are added to
    [process.env], those already set are kept. A missing file adds
    nothing. *)
Definition config (file : option (gmap string string))
  (process_env : gmap string string) : gmap string string :=
  process_env ∪ default ∅ file.

Definition envSchema : Zod.ZodType t :=
  Zod.object (fun path env =>
    Build_t
      <$$> Zod.field "NODE_ENV"
             (Zod.default_ (Zod.enum ["development"; "test"; "production"])
                           (VStr "production")) path env
      <**> Zod.field "DATABASE_URL" Zod.string_ path env
      <**> Zod.field "DATABASE_CLIENT"
             (Zod.default_ (Zod.enum ["sqlite"; "pg"]) (VStr "sqlite"))
             path env
      <**> Zod.field "PORT"
             (Zod.default_ Zod.coerce_number (VNum 3333%float)) path env).

(** Either the exported [env], or the error thrown at import time
    together with the issues written to the console before it. *)
Inductive Loaded :=
  | env (data : t)
  | thrown (logged : list Zod.ZodIssue) (message : string).

Definition invalid_message : string := "Variáveis de ambiente inválidas.".

(** The module body: load the [.env] file (or [.env.test] under
    [NODE_ENV=test]), validate, and throw when validation fails.
    [dot_env] and [dot_env_test] are the parsed contents of the two
    files when they exist. *)
Definition load (dot_env dot_env_test : option (gmap string string))
  (process_env : gmap string string) : Loaded :=
  let process_env :=
    if bool_decide (process_env !! "NODE_ENV" = Some "test")
    then config dot_env_test process_env
    else config dot_env process_env in
  match Zod.safeParse envSchema (string_record process_env) with
  | Zod.failure issues => thrown issues invalid_message
  | Zod.success data => env data
  end.

End Env.

(* ===================================================================== *)
(** * Storage handle (database.ts) *)
(* ===================================================================== *)

Module Database.

(** [connection] is an object with the file name for SQLite and the
    connection string itself otherwise. *)
Inductive Connection :=
  | Filename (filename : string)
  | ConnectionString (url : string).

Record Migrations := { extension : string; directory : string }.

Record Config := {
  client : string;
  connection : Connection;
  useNullAsDefault : bool;
  migrations : Migrations
}.

Definition config (env : Env.t) : Config :=
  {| client := Env.DATABASE_CLIENT env;
     connection :=
       if String.eqb (Env.DATABASE_CLIENT env) "sqlite"
       then Filename (Env.DATABASE_URL env)
       else ConnectionString (Env.DATABASE_URL env);
     useNullAsDefault := true;
     migrations := {| extension := "ts"; directory := "./db/migrations" |} |}.

End Database.

(* ===================================================================== *)
(** * [randomUUID] (node:crypto) *)
(* ===================================================================== *)

Module Crypto.

Definition hex_char (d : N) : ascii :=
  ascii_of_N (if (d <? 10)%N then 48 + d else 87 + d)%N.

(** The [i]-th of the 32 hexadecimal digits of a version 4 UUID drawn
    from 128 random bits: digit 12 is the version, the two high bits of
    digit 16 are the variant. *)
Definition uuid_digit (bits : N) (i : nat) : N :=
  let d := N.land (N.shiftr bits (4 * N.of_nat (31 - i))) 15 in
  if (i =? 12)%nat then 4%N
  else if (i =? 16)%nat then N.lor 8 (N.land d 3)
  else d.

Definition hex_run (bits : N) (from len : nat) : list ascii :=
  map (fun i => hex_char (uuid_digit bits i)) (seq from len).

Definition dash : ascii := ascii_of_N 45.

Definition format_uuid (bits : N) : string :=
  string_of_list_ascii
    (hex_run bits 0 8 ++ dash :: hex_run bits 8 4 ++ dash ::
     hex_run bits 12 4 ++ dash :: hex_run bits 16 4 ++ dash ::
     hex_run bits 20 12).

End Crypto.

(* ===================================================================== *)
(** * The [transactions] table and the world around a request *)
(* ===================================================================== *)

(** The store is modelled on SQLite, the client the test suite runs on:
    a number is stored and read back as it is, text compares byte by byte,
    rows keep their insertion order, and an amount is stored, read back
    and summed as a double. *)
Module Transaction.

(** A row of [transactions] (the [Tables] declaration); [session_id] is
    the one nullable column. *)
Record t := {
  id : string;
  title : string;
  amount : number;
  created_at : string;
  session_id : option string
}.

End Transaction.

Module Summary.

(** The one row of [select sum(amount) as amount]: [null] when the sum
    ranges over no row. *)
Record t := { amount : option number }.

End Summary.

Inductive Column := col_id | col_session_id.

(** The statements the database receives. *)
Inductive Statement :=
  | Insert (id title : string) (amount : number) (session_id : string)
  | Select (conditions : list (Column * string))
  | SelectFirst (conditions : list (Column * string))
  | SelectSumFirst (conditions : list (Column * string)).

Record World := {
  table : list Transaction.t;       (* rows of [transactions], oldest first *)
  statements : list Statement;      (* statements executed so far *)
  console : list string;            (* lines written by [console.log] *)
  entropy : nat -> N;               (* the random bits of the n-th draw *)
  drawn : nat;                      (* draws made so far *)
  now : string                      (* the database's current timestamp *)
}.

Record CookieOptions := { path : string; maxAge : N }.

Record SetCookie := {
  cookie_name : string;
  cookie_value : string;
  cookie_options : CookieOptions
}.

Inductive Payload :=
  | NoContent
  | TransactionsBody (transactions : list Transaction.t)
  | TransactionBody (transaction : option Transaction.t)
  | SummaryBody (summary : option Summary.t)
  | UnauthorizedBody.

(** The reply under construction: [sent] is set by [send]. *)
Record Reply := {
  statusCode : nat;
  setCookies : list SetCookie;
  sent : option Payload
}.

Definition new_reply : Reply :=
  {| statusCode := 200; setCookies := []; sent := None |}.

Inductive Error :=
  | ZodError (issues : list Zod.ZodIssue)
  | KnexError (message : string).

Record State := { world : World; reply : Reply }.

(** Computations of a handler: they read and update the state and either
    return or throw. *)
Definition M (A : Type) : Type := State -> (Error + A) * State.

Definition ret {A} (a : A) : M A := fun st => (inr a, st).

Definition throw {A} (e : Error) : M A := fun st => (inl e, st).

Definition bind {A B} (m : M A) (k : A -> M B) : M B := fun st =>
  match m st with
  | (inr a, st') => k a st'
  | (inl e, st') => (inl e, st')
  end.

Notation "'let*' x ':=' m 'in' k" := (bind m (fun x => k))
  (at level 10, x pattern, m at level 100, k at level 200).

Definition update_world (f : World -> World) : M unit := fun st =>
  (inr tt, {| world := f (world st); reply := reply st |}).

Definition update_reply (f : Reply -> Reply) : M unit := fun st =>
  (inr tt, {| world := world st; reply := f (reply st) |}).

Definition read_world {A} (f : World -> A) : M A := fun st =>
  (inr (f (world st)), st).

Definition read_reply {A} (f : Reply -> A) : M A := fun st =>
  (inr (f (reply st)), st).

(** [reply.sent] *)
Definition is_sent (r : Reply) : bool :=
  match sent r with Some _ => true | None => false end.

(** The four ways a request changes the world. *)
Definition draw (w : World) : World :=
  {| table := table w; statements := statements w; console := console w;
     entropy := entropy w; drawn := S (drawn w); now := now w |}.

Definition log_line (line : string) (w : World) : World :=
  {| table := table w; statements := statements w;
     console := console w ++ [line];
     entropy := entropy w; drawn := drawn w; now := now w |}.

Definition record (s : Statement) (w : World) : World :=
  {| table := table w; statements := statements w ++ [s];
     console := console w; entropy := entropy w; drawn := drawn w;
     now := now w |}.

Definition append_row (row : Transaction.t) (w : World) : World :=
  {| table := table w ++ [row]; statements := statements w;
     console := console w; entropy := entropy w; drawn := drawn w;
     now := now w |}.

(** [randomUUID()] *)
Definition randomUUID : M string :=
  let* bits := read_world (fun w => entropy w (drawn w)) in
  let* _ := update_world draw in
  ret (Crypto.format_uuid bits).

(** [console.log(line)] *)
Definition console_log (line : string) : M unit :=
  update_world (log_line line).

(** [response.setCookie(name, value, options)] *)
Definition setCookie (name value : string) (options : CookieOptions)
  : M unit :=
  update_reply (fun r =>
    {| statusCode := statusCode r;
       setCookies := setCookies r ++
         [{| cookie_name := name; cookie_value := value;
             cookie_options := options |}];
       sent := sent r |}).

(** [response.status(code)] *)
Definition status (code : nat) : M unit :=
  update_reply (fun r =>
    {| statusCode := code; setCookies := setCookies r; sent := sent r |}).

(** [response.send(payload)] *)
Definition send (payload : Payload) : M unit :=
  update_reply (fun r =>
    {| statusCode := statusCode r; setCookies := setCookies r;
       sent := Some payload |}).

(** [schema.parse(data)]: the parsed data, or a thrown [ZodError]. *)
Definition parse {A} (schema : Zod.ZodType A) (data : value) : M A :=
  match Zod.safeParse schema data with
  | Zod.success a => ret a
  | Zod.failure issues => throw (ZodError issues)
  end.

(* ===================================================================== *)
(** * SQLite's [sum] aggregate *)
(* ===================================================================== *)

(** [sum] as SQLite 3.44 computes it over doubles (func.c): not a plain
    running sum but a Kahan-Babuska-Neumaier compensated one, which
    collects the rounding error of every addition in a second accumulator
    and adds it back at the end. *)
Module SQLite.

(** [SumCtx]: the running sum, its error term and the number of values
    summed so far. *)
Record SumCtx := { rSum : number; rErr : number; cnt : nat }.

(** The context of an aggregate that has seen no value. *)
Definition SumCtx_init : SumCtx :=
  {| rSum := 0%float; rErr := 0%float; cnt := 0 |}.

(** [kahanBabuskaNeumaierStep(pSum, r)]:
    [s = pSum->rSum; t = s + r;
     if( fabs(s) > fabs(r) ) pSum->rErr += (s - t) + r;
     else                    pSum->rErr += (r - t) + s;
     pSum->rSum = t;] *)
Definition kahanBabuskaNeumaierStep (p : SumCtx) (r : number) : SumCtx :=
  let s := rSum p in
  let t := (s + r)%float in
  {| rSum := t;
     rErr := if (abs r <? abs s)%float
             then (rErr p + ((s - t) + r))%float
             else (rErr p + ((r - t) + s))%float;
     cnt := cnt p |}.

(** [sumStep] on a double: the value is counted and added. *)
Definition sumStep (p : SumCtx) (r : number) : SumCtx :=
  kahanBabuskaNeumaierStep
    {| rSum := rSum p; rErr := rErr p; cnt := S (cnt p) |} r.

(** [sqlite3_result_double]: a NaN is stored as NULL. *)
Definition result_double (r : number) : option number :=
  if Number.isNaN r then None else Some r.

(** [sumFinalize]: NULL when no value was summed, else the running sum
    with the error term added back. *)
Definition sumFinalize (p : SumCtx) : option number :=
  match cnt p with
  | O => None
  | S _ => result_double (rSum p + rErr p)%float
  end.

End SQLite.

(* ===================================================================== *)
(** * The Knex query builder over [transactions] *)
(* ===================================================================== *)

Module Knex.

(** The text of a column in a row; a NULL has none. *)
Definition cell (c : Column) (row : Transaction.t) : option string :=
  match c with
  | col_id => Some (Transaction.id row)
  | col_session_id => Transaction.session_id row
  end.

(** [column = binding] as SQL evaluates it: never true on NULL. *)
Definition holds (row : Transaction.t) (cond : Column * string) : bool :=
  match cell (fst cond) row with
  | Some text => String.eqb text (snd cond)
  | None => false
  end.

Definition matches (conditions : list (Column * string))
  (row : Transaction.t) : bool :=
  forallb (holds row) conditions.

(** A [where] clause as the handlers build it: the bindings may be
    [undefined]. *)
Definition Where := list (Column * option string).

Definition undefined_binding : string :=
  "Undefined binding(s) detected when compiling query".

(** Compiling the query: an [undefined] binding makes Knex throw before
    anything is sent to the database. *)
Fixpoint compile (w : Where) : option (list (Column * string)) :=
  match w with
  | [] => Some []
  | (c, Some v) :: rest =>
      match compile rest with
      | Some conds => Some ((c, v) :: conds)
      | None => None
      end
  | (_, None) :: _ => None
  end.

(** Runs a query: the statement reaches the database, which answers
    from the rows of the table. *)
Definition execute (s : Statement) : M (list Transaction.t) :=
  let* _ := update_world (record s) in
  read_world table.

(** [knex('transactions').where(...).select()] *)
Definition select (w : Where) : M (list Transaction.t) :=
  match compile w with
  | None => throw (KnexError undefined_binding)
  | Some conds =>
      let* rows := execute (Select conds) in
      ret (List.filter (matches conds) rows)
  end.

(** [knex('transactions').where(...).first()] *)
Definition first (w : Where) : M (option Transaction.t) :=
  match compile w with
  | None => throw (KnexError undefined_binding)
  | Some conds =>
      let* rows := execute (SelectFirst conds) in
      ret (head (List.filter (matches conds) rows))
  end.

(** [select sum(amount)] over the selected values: SQLite's aggregate,
    stepped once per value in row order and then finalised. *)
Definition sql_sum (values : list number) : option number :=
  SQLite.sumFinalize (fold_left SQLite.sumStep values SQLite.SumCtx_init).

(** [knex('transactions').where(...).sum('amount', { as: 'amount' })
    .first()]: an aggregate query always yields one row. *)
Definition sum_amount_first (w : Where) : M (option Summary.t) :=
  match compile w with
  | None => throw (KnexError undefined_binding)
  | Some conds =>
      let* rows := execute (SelectSumFirst conds) in
      let selected := List.filter (matches conds) rows in
      ret (head [ {| Summary.amount :=
                       sql_sum (map Transaction.amount selected) |} ])
  end.

(** [knex('transactions').insert({ id, title, amount, session_id })]:
    the row is appended; [created_at] takes its default, the current
    timestamp. *)
Definition insert (id title : string) (amount : number)
  (session_id : string) : M unit :=
  let* created_at := read_world now in
  let* _ := update_world (record (Insert id title amount session_id)) in
  update_world (append_row
    {| Transaction.id := id; Transaction.title := title;
       Transaction.amount := amount;
       Transaction.created_at := created_at;
       Transaction.session_id := Some session_id |}).

End Knex.

(* ===================================================================== *)
(** * Requests and the Fastify lifecycle *)
(* ===================================================================== *)

(** The four routes of the plugin, as the router resolves them; the
    [:id] segment of [GET /:id] becomes [request.params.id]. *)
Inductive Route :=
  | POST_root
  | GET_root
  | GET_id (id : string)
  | GET_summary.

(** A request as it reaches the [preHandler] hooks of the plugin: Fastify
    has routed it to one of the four routes and has parsed its body. A
    request that Fastify answers before the hooks run (no such route, a
    body it cannot parse) is not a [Request]. *)
Record Request := {
  route : Route;
  url : string;
  cookies : gmap string string;
  body : value
}.

Definition method (request : Request) : string :=
  match route request with
  | POST_root => "POST"
  | _ => "GET"
  end.

Definition params (request : Request) : gmap string string :=
  match route request with
  | GET_id id => {[ "id" := id ]}
  | _ => ∅
  end.

(** What a handler hands back to Fastify: an object to serialise, or the
    reply it has already sent. *)
Inductive Returned :=
  | Object (payload : Payload)
  | ReplySent.

Record RouteOptions := {
  preHandler : list (Request -> M unit);
  handler : Request -> M Returned
}.

(** Hooks run in order; as soon as one has sent the reply the rest of the
    chain, handler included, is skipped. *)
Fixpoint run_hooks (hooks : list (Request -> M unit)) (request : Request)
  : M bool :=
  match hooks with
  | [] => ret false
  | hook :: rest =>
      let* _ := hook request in
      let* replied := read_reply is_sent in
      if replied then ret true else run_hooks rest request
  end.

(* ===================================================================== *)
(** * Session guard (middlewares/check-session-id-exists) *)
(* ===================================================================== *)

(** Modelled from the spec: the middleware [checkSessionIdExists], whose
    file is not among the sources. "Read a cookie named sessionId. If
    absent, the request is rejected with an unauthorized-style response and
    the handler chain does not proceed. If present, the value is passed
    through unchanged." *)
Definition checkSessionIdExists (request : Request) : M unit :=
  match cookies request !! "sessionId" with
  | None =>
      let* _ := status 401 in
      send UnauthorizedBody
  | Some _ => ret tt
  end.

(* ===================================================================== *)
(** * Transaction routes (routes/transactions.ts) *)
(* ===================================================================== *)

Module Routes.

(** The plugin-wide [preHandler] hook. *)
Definition logRequest (request : Request) : M unit :=
  console_log ("[" ++ method request ++ " " ++ url request ++ "]").

Record CreateTransactionBody := {
  title : string;
  amount : number;
  type : string
}.

Definition createTransactionBodySchema : Zod.ZodType CreateTransactionBody :=
  Zod.object (fun path props =>
    Build_CreateTransactionBody
      <$$> Zod.field "title" Zod.string_ path props
      <**> Zod.field "amount" Zod.number_ path props
      <**> Zod.field "type" (Zod.enum ["credit"; "debit"]) path props).

Record GetTransactionsParams := { id : string }.

Definition getTransactionsParamsSchema : Zod.ZodType GetTransactionsParams :=
  Zod.object (fun path props =>
    Build_GetTransactionsParams
      <$$> Zod.field "id" Zod.string_uuid path props).

(** [app.post('/', ...)]. The test [!sessionId] on a
    [string | undefined] holds for [undefined] and for the empty
    string. *)
Definition createTransaction (request : Request) : M Returned :=
  let* parsed := parse createTransactionBodySchema (body request) in
  let mint : M string :=
    let* sessionId := randomUUID in
    let* _ := setCookie "sessionId" sessionId
                {| path := "/"; maxAge := (60 * 60 * 24 * 7)%N |} in
    ret sessionId in
  let* sessionId :=
    match cookies request !! "sessionId" with
    | None => mint
    | Some sessionId => if String.eqb sessionId "" then mint else ret sessionId
    end in
  let* id := randomUUID in
  let* _ := Knex.insert id (title parsed)
              (if String.eqb (type parsed) "credit"
               then amount parsed
               else (amount parsed * -1)%float)
              sessionId in
  let* _ := status 201 in
  let* _ := send NoContent in
  ret ReplySent.

(** [app.get('/', ...)] *)
Definition listTransactions (request : Request) : M Returned :=
  let sessionId := cookies request !! "sessionId" in
  let* transactions := Knex.select [(col_session_id, sessionId)] in
  ret (Object (TransactionsBody transactions)).

(** [app.get('/:id', ...)] *)
Definition getTransaction (request : Request) : M Returned :=
  let* parsed := parse getTransactionsParamsSchema
                   (string_record (params request)) in
  let sessionId := cookies request !! "sessionId" in
  let* transaction :=
    Knex.first [(col_session_id, sessionId); (col_id, Some (id parsed))] in
  ret (Object (TransactionBody transaction)).

(** [app.get('/summary', ...)] *)
Definition getSummary (request : Request) : M Returned :=
  let sessionId := cookies request !! "sessionId" in
  let* summary := Knex.sum_amount_first [(col_session_id, sessionId)] in
  ret (Object (SummaryBody summary)).

(** The route table of the plugin. *)
Definition options (r : Route) : RouteOptions :=
  match r with
  | POST_root => {| preHandler := []; handler := createTransaction |}
  | GET_root =>
      {| preHandler := [checkSessionIdExists]; handler := listTransactions |}
  | GET_id _ =>
      {| preHandler := [checkSessionIdExists]; handler := getTransaction |}
  | GET_summary =>
      {| preHandler := [checkSessionIdExists]; handler := getSummary |}
  end.

End Routes.

(** The reply as the client receives it. *)
Record Response := {
  response_status : nat;
  response_cookies : list SetCookie;
  response_body : Payload
}.

(** A request ends with a reply, or with an exception handed to Fastify's
    error handler together with the cookies set on the reply so far. *)
Inductive Outcome :=
  | Replied (response : Response)
  | Failed (error : Error) (cookies_set : list SetCookie).

(** One request through the plugin: the logging hook, the route's own
    [preHandler]s, then the handler unless a hook has replied; an object
    returned by the handler is sent with the status set so far. *)
Definition lifecycle (request : Request) : M unit :=
  let opts := Routes.options (route request) in
  let* replied :=
    run_hooks (Routes.logRequest :: preHandler opts) request in
  if replied then ret tt
  else
    let* returned := handler opts request in
    match returned with
    | Object payload => send payload
    | ReplySent => ret tt
    end.

Definition respond (r : Reply) : Response :=
  {| response_status := statusCode r;
     response_cookies := setCookies r;
     response_body := default NoContent (sent r) |}.

Definition handle (request : Request) (w : World) : Outcome * World :=
  match lifecycle request {| world := w; reply := new_reply |} with
  | (inr _, st) => (Replied (respond (reply st)), world st)
  | (inl e, st) => (Failed e (setCookies (reply st)), world st)
  end.

(* ===================================================================== *)
(** * Vocabulary of the properties *)
(* ===================================================================== *)

(** The three field rules of the create schema, read off a property
    value: a string, a number (NaN is none), one of the two types. *)
Definition is_title (v : value) : bool :=
  match v with VStr _ => true | _ => false end.

Definition is_amount (v : value) : bool :=
  match v with VNum n => negb (Number.isNaN n) | _ => false end.

Definition is_type (v : value) : bool :=
  match v with
  | VStr s => String.eqb s "credit" || String.eqb s "debit"
  | _ => false
  end.

Definition meets_create_schema (body : value) : bool :=
  match body with
  | VObj props =>
      is_title (get props "title") && is_amount (get props "amount") &&
      is_type (get props "type")
  | _ => false
  end.

(** [body] is an object carrying the title [t], the amount [a] and the
    type [ty] (other properties are allowed). *)
Definition carries (body : value) (t : string) (a : number) (ty : string)
  : Prop :=
  exists props,
    body = VObj props /\
    props !! "title" = Some (VStr t) /\
    props !! "amount" = Some (VNum a) /\
    props !! "type" = Some (VStr ty).

(** ... and is the body of a valid create request: the amount is a
    number and the type is one of the two. *)
Definition create_body (body : value) (t : string) (a : number)
  (ty : string) : Prop :=
  carries body t a ty /\ Number.isNaN a = false /\
  (ty = "credit" \/ ty = "debit").

(** The rows of a session. *)
Definition of_session (sessionId : string) (row : Transaction.t) : bool :=
  bool_decide (Transaction.session_id row = Some sessionId).

Definition rows_of (sessionId : string) (rows : list Transaction.t)
  : list Transaction.t :=
  List.filter (of_session sessionId) rows.

(** The signed sum of a session, written as one pass over the table that
    skips the rows of other sessions and adds every amount of the session
    to the store's running total; it is [null] when no row of the session
    has been met, and when the total is not a number. *)
Fixpoint running_total (total : SQLite.SumCtx) (sessionId : string)
  (rows : list Transaction.t) : SQLite.SumCtx :=
  match rows with
  | [] => total
  | row :: rest =>
      running_total
        (if of_session sessionId row
         then SQLite.sumStep total (Transaction.amount row)
         else total)
        sessionId rest
  end.

Definition signed_sum (sessionId : string) (rows : list Transaction.t)
  : option number :=
  SQLite.sumFinalize (running_total SQLite.SumCtx_init sessionId rows).


(** The identifier [randomUUID] yields on its next call. *)
Definition next_uuid (w : World) : string :=
  Crypto.format_uuid (entropy w (drawn w)).

(** The routes guarded by [checkSessionIdExists]. *)
Definition is_read (r : Route) : bool :=
  match r with POST_root => false | _ => true end.

(** [Number.isInteger] *)
Definition isInteger (x : number) : bool :=
  match Prim2SF x with
  | S754_zero _ => true
  | S754_finite _ m e =>
      (0 <=? e)%Z || (Zpos m mod 2 ^ (- e) =? 0)%Z
  | _ => false
  end.

(** The conditions under which the environment is accepted, on the
    variables as the schema sees them. *)
Definition optional_enum (options : list string) (v : option string) : bool :=
  match v with
  | None => true
  | Some s => existsb (String.eqb s) options
  end.

Definition acceptable_port (v : option string) : bool :=
  match v with
  | None => true
  | Some s => negb (Number.isNaN (Number.StringToNumber s))
  end.

Definition acceptable_env (e : gmap string string) : bool :=
  optional_enum ["development"; "test"; "production"] (e !! "NODE_ENV") &&
  bool_decide (is_Some (e !! "DATABASE_URL")) &&
  optional_enum ["sqlite"; "pg"] (e !! "DATABASE_CLIENT") &&
  acceptable_port (e !! "PORT").

(** The variables the schema is run on: [process.env] after [dotenv]. *)
Definition effective_env (dot_env dot_env_test : option (gmap string string))
  (process_env : gmap string string) : gmap string string :=
  if bool_decide (process_env !! "NODE_ENV" = Some "test")
  then Env.config dot_env_test process_env
  else Env.config dot_env process_env.

(** Whether a create request starts a session: it carries no [sessionId]
    cookie, or an empty one. *)
Definition starts_session (request : Request) : bool :=
  match cookies request !! "sessionId" with
  | None => true
  | Some s => String.eqb s ""
  end.

(** The session a create request is filed under. *)
Definition session_of_create (request : Request) (w : World) : string :=
  if starts_session request then next_uuid w
  else default "" (cookies request !! "sessionId").

(** The cookie the specification describes: root path, seven days. *)
Definition session_cookie (sessionId : string) : SetCookie :=
  {| cookie_name := "sessionId"; cookie_value := sessionId;
     cookie_options := {| path := "/"; maxAge := 604800 |} |}.

(** The line the logging hook writes for a request. *)
Definition log_of (request : Request) : string :=
  "[" ++ method request ++ " " ++ url request ++ "]".

(** The row a valid create request inserts. *)
Definition created_row (request : Request) (w : World) (t : string)
  (a : number) (ty : string) : Transaction.t :=
  {| Transaction.id :=
       next_uuid (if starts_session request then draw w else w);
     Transaction.title := t;
     Transaction.amount :=
       if String.eqb ty "credit" then a else (a * -1)%float;
     Transaction.created_at := now w;
     Transaction.session_id := Some (session_of_create request w) |}.

(** The first row of a session with a given id. *)
Definition find_row (sessionId id : string) (rows : list Transaction.t)
  : option Transaction.t :=
  head (List.filter (fun r => String.eqb (Transaction.id r) id)
                    (rows_of sessionId rows)).

(** The rows a reply shows to the client. *)
Definition rows_shown (o : Outcome) : list Transaction.t :=
  match o with
  | Replied r =>
      match response_body r with
      | TransactionsBody rows => rows
      | TransactionBody (Some row) => [row]
      | _ => []
      end
  | Failed _ _ => []
  end.

(** The fields of an object body that break the create schema, in the
    order of the schema. *)
Definition violated_fields (props : gmap string value) : list string :=
  (if is_title (get props "title") then [] else ["title"]) ++
  (if is_amount (get props "amount") then [] else ["amount"]) ++
  (if is_type (get props "type") then [] else ["type"]).

(** A run of requests, one after the other. *)
Definition run (requests : list Request) (w : World) : World :=
  fold_left (fun w request => snd (handle request w)) requests w.

(** None of the create requests of a run is filed under [sessionId]. *)
Fixpoint foreign_to (sessionId : string) (requests : list Request)
  (w : World) : Prop :=
  match requests with
  | [] => True
  | request :: rest =>
      (route request = POST_root ->
       session_of_create request w <> sessionId) /\
      foreign_to sessionId rest (snd (handle request w))
  end.

(** The issues of a parse result (none on success). *)
Definition issues_of {A} (r : Zod.SafeParse A) : list Zod.ZodIssue :=
  match r with
  | Zod.failure issues => issues
  | Zod.success _ => []
  end.

Definition succeeded {A} (r : Zod.SafeParse A) : bool :=
  match r with
  | Zod.failure _ => false
  | Zod.success _ => true
  end.

(** A world to run examples in: an empty table and a fixed random
    source. *)
Definition empty_world : World :=
  {| table := []; statements := []; console := [];
     entropy := fun n =>
       (N.of_nat (S n) * 210306068529402873165736369884012333109)%N;
     drawn := 0; now := "2024-01-01 00:00:00" |}.

(** [POST /transactions] with the body [{ title, amount, type }]. *)
Definition post (cookies : gmap string string) (t : string) (a : number)
  (ty : string) : Request :=
  {| route := POST_root; url := "/transactions"; cookies := cookies;
     body := VObj {[ "title" := VStr t; "amount" := VNum a;
                     "type" := VStr ty ]} |}.

(** A [GET] under [/transactions] with the [sessionId] cookie set. *)
Definition get_with (r : Route) (path : string) (sessionId : string)
  : Request :=
  {| route := r; url := path; cookies := {[ "sessionId" := sessionId ]};
     body := VUndefined |}.

(* ===================================================================== *)
(** * Vocabulary of the further properties *)
(* ===================================================================== *)

(** The cookies a request ends up setting, whether it is answered or
    fails. *)
Definition cookies_of (o : Outcome) : list SetCookie :=
  match o with
  | Replied r => response_cookies r
  | Failed _ set => set
  end.

(** The world a valid create request leaves behind. *)
Definition after_create (request : Request) (w : World) (t : string)
  (a : number) (ty : string) : World :=
  let row := created_row request w t a ty in
  {| table := table w ++ [row];
     statements :=
       statements w ++
       [Insert (Transaction.id row) t (Transaction.amount row)
               (session_of_create request w)];
     console := console w ++ [log_of request];
     entropy := entropy w;
     drawn := (if starts_session request then 2 else 1) + drawn w;
     now := now w |}.

Definition ok (code : nat) (payload : Payload) : Outcome :=
  Replied {| response_status := code; response_cookies := [];
             response_body := payload |}.

Definition uuid_issue : Zod.ZodIssue :=
  {| Zod.code := Zod.invalid_string "uuid"; Zod.path := ["id"] |}.

(** The seven ways a request through the plugin can go. *)
Inductive Handled (request : Request) (w : World)
  : Outcome * World -> Prop :=
  | created (t : string) (a : number) (ty : string) :
      route request = POST_root ->
      create_body (body request) t a ty ->
      Handled request w
        (Replied {| response_status := 201;
                    response_cookies :=
                      if starts_session request
                      then [session_cookie (next_uuid w)] else [];
                    response_body := NoContent |},
         after_create request w t a ty)
  | create_refused (issues : list Zod.ZodIssue) :
      route request = POST_root ->
      meets_create_schema (body request) = false ->
      Zod.safeParse Routes.createTransactionBodySchema (body request) =
        Zod.failure issues ->
      Handled request w
        (Failed (ZodError issues) [], log_line (log_of request) w)
  | unauthorized :
      is_read (route request) = true ->
      cookies request !! "sessionId" = None ->
      Handled request w
        (ok 401 UnauthorizedBody, log_line (log_of request) w)
  | listed (sessionId : string) :
      route request = GET_root ->
      cookies request !! "sessionId" = Some sessionId ->
      Handled request w
        (ok 200 (TransactionsBody (rows_of sessionId (table w))),
         record (Select [(col_session_id, sessionId)])
           (log_line (log_of request) w))
  | looked_up (sessionId id : string) :
      route request = GET_id id ->
      cookies request !! "sessionId" = Some sessionId ->
      Zod.uuid_format id = true ->
      Handled request w
        (ok 200 (TransactionBody (find_row sessionId id (table w))),
         record (SelectFirst [(col_session_id, sessionId); (col_id, id)])
           (log_line (log_of request) w))
  | id_refused (sessionId id : string) :
      route request = GET_id id ->
      cookies request !! "sessionId" = Some sessionId ->
      Zod.uuid_format id = false ->
      Handled request w
        (Failed (ZodError [uuid_issue]) [], log_line (log_of request) w)
  | summed (sessionId : string) :
      route request = GET_summary ->
      cookies request !! "sessionId" = Some sessionId ->
      Handled request w
        (ok 200 (SummaryBody
                   (Some {| Summary.amount :=
                              signed_sum sessionId (table w) |})),
         record (SelectSumFirst [(col_session_id, sessionId)])
           (log_line (log_of request) w)).

(** A row as the create route writes them: an id of UUID format, an
    amount that is a number, and a session that is set and not empty. *)
Definition written_by_api (row : Transaction.t) : Prop :=
  Zod.uuid_format (Transaction.id row) = true /\
  Number.isNaN (Transaction.amount row) = false /\
  exists sessionId,
    Transaction.session_id row = Some sessionId /\ sessionId <> "".

(** A statement is scoped to the session of the request that sent it: an
    insert files the row under the session of the create, a query
    filters on [session_id] equal to the cookie. *)
Definition scoped (request : Request) (w : World) (s : Statement) : Prop :=
  match s with
  | Insert _ _ _ sessionId =>
      route request = POST_root /\ sessionId = session_of_create request w
  | Select conds | SelectFirst conds | SelectSumFirst conds =>
      exists sessionId,
        cookies request !! "sessionId" = Some sessionId /\
        In (col_session_id, sessionId) conds
  end.

(** The variables of an environment that break the schema, in the order
    of the schema. *)
Definition invalid_variables (e : gmap string string) : list string :=
  (if optional_enum ["development"; "test"; "production"] (e !! "NODE_ENV")
   then [] else ["NODE_ENV"]) ++
  (if bool_decide (is_Some (e !! "DATABASE_URL"))
   then [] else ["DATABASE_URL"]) ++
  (if optional_enum ["sqlite"; "pg"] (e !! "DATABASE_CLIENT")
   then [] else ["DATABASE_CLIENT"]) ++
  (if acceptable_port (e !! "PORT") then [] else ["PORT"]).

(** Rows that belong to a session, as opposed to the rows that predate
    the [session_id] column and hold NULL there. *)
Definition has_session (row : Transaction.t) : bool :=
  match Transaction.session_id row with Some _ => true | None => false end.

Definition with_table (rows : list Transaction.t) (w : World) : World :=
  {| table := rows; statements := statements w; console := console w;
     entropy := entropy w; drawn := drawn w; now := now w |}.

(** The three properties of a body the create schema reads. *)
Definition same_fields (p1 p2 : gmap string value) : Prop :=
  get p1 "title" = get p2 "title" /\
  get p1 "amount" = get p2 "amount" /\
  get p1 "type" = get p2 "type".

(** Closes [carries] and [create_body] goals on a literal body. *)
Ltac literal_body :=
  lazymatch goal with
  | |- create_body _ _ _ _ =>
      split; [literal_body | split; [reflexivity | (now left) || (now right)]]
  | |- carries _ _ _ _ =>
      eexists; split; [reflexivity | split_and!; reflexivity]
  end.

(* ===================================================================== *)
(** * Facts about binary64 numbers *)
(* ===================================================================== *)

Section NumberFacts.

Local Open Scope float_scope.

Lemma Prim2SF_zero : Prim2SF 0 = S754_zero false.
Proof. reflexivity. Qed.

Lemma Prim2SF_minus_one : Prim2SF (-1) = Number.minus_one_SF.
Proof. reflexivity. Qed.

(** Shifting right by [n] undoes [n] doublings, exactly. *)
Lemma shr_doublings (n : positive) : forall m : positive,
  SpecFloat.iter_pos shr_1 n
    {| shr_m := Zpos (Pos.iter xO m n); shr_r := false; shr_s := false |}
  = {| shr_m := Zpos m; shr_r := false; shr_s := false |}.
Proof.
  induction n as [n IH | n IH | ]; intros m; simpl.
  - now rewrite !IH.
  - now rewrite !IH.
  - reflexivity.
Qed.

Lemma digits_doublings (n : positive) : forall m : positive,
  Zpos (digits2_pos (Pos.iter xO m n)) = (Zpos (digits2_pos m) + Zpos n)%Z.
Proof.
  induction n as [ | n IH] using Pos.peano_ind; intros m.
  - simpl. lia.
  - rewrite Pos.iter_succ. simpl. rewrite Pos2Z.inj_succ, IH. lia.
Qed.

(** On the specification side, multiplying a binary64 value by [-1]
    flips its sign and rounds nothing. *)
Lemma SFmul_minus_one (s : spec_float) :
  valid_binary s = true ->
  SF64mul s Number.minus_one_SF = SFopp s.
Proof.
  destruct s as [b | b | | b m e]; intros Hv.
  - now destruct b.
  - now destruct b.
  - reflexivity.
  - unfold SF64mul, SFmul, SFopp, Number.minus_one_SF.
    replace (m * 4503599627370496)%positive with (Pos.iter xO m 52)
      by (rewrite Pos.mul_comm; reflexivity).
    cbn [valid_binary] in Hv. unfold bounded, canonical_mantissa in Hv.
    apply andb_prop in Hv as [Hc Hb]. apply Z.eqb_eq in Hc.
    unfold binary_round_aux, shr_fexp, Zdigits2.
    rewrite digits_doublings.
    replace (Z.pos (digits2_pos m) + 52 + (e + -52))%Z
      with (Z.pos (digits2_pos m) + e)%Z by lia.
    rewrite Hc. replace (e - (e + -52))%Z with 52%Z by lia.
    change (shr (shr_record_of_loc (Z.pos (Pos.iter xO m 52)) loc_Exact)
                (e + -52) 52)
      with (SpecFloat.iter_pos shr_1 52
              {| shr_m := Zpos (Pos.iter xO m 52);
                 shr_r := false; shr_s := false |},
            (e + -52 + 52)%Z).
    rewrite shr_doublings.
    cbn [shr_m shr_r shr_s loc_of_shr_record round_nearest_even Zdigits2].
    replace (e + -52 + 52)%Z with e by lia.
    rewrite Hc, Z.sub_diag. cbn [shr shr_record_of_loc shr_m].
    rewrite Hb. now destruct b.
Qed.

(** [x * -1] is [-x], for every number. *)
Lemma times_minus_one (x : number) : x * -1 = - x.
Proof.
  apply Prim2SF_inj. rewrite mul_spec, opp_spec, Prim2SF_minus_one.
  apply SFmul_minus_one, Prim2SF_valid.
Qed.

Lemma isNaN_spec (x : number) :
  Number.isNaN x = true <-> Prim2SF x = S754_nan.
Proof.
  unfold Number.isNaN, is_nan. rewrite FloatAxioms.eqb_spec.
  destruct (Prim2SF x) as [s | s | | s m e]; try destruct s; cbn;
    try (split; congruence).
  all: unfold SFeqb, SFcompare; rewrite ?Z.compare_refl,
         ?Pos.compare_cont_refl; cbn; split; congruence.
Qed.

Lemma positive_not_NaN (x : number) :
  Number.gt0 x = true -> Number.isNaN x = false.
Proof.
  intros H. destruct (Number.isNaN x) eqn:E; [ | reflexivity].
  apply isNaN_spec in E. unfold Number.gt0 in H.
  rewrite FloatAxioms.ltb_spec, E in H. discriminate.
Qed.

Lemma finite_not_NaN (x : number) :
  Number.isFinite x = true -> Number.isNaN x = false.
Proof.
  unfold Number.isFinite, is_finite, Number.isNaN.
  now destruct (is_nan x).
Qed.

(** The negation of a positive number is negative. *)
Lemma opp_positive (x : number) :
  Number.gt0 x = true -> Number.lt0 (- x) = true.
Proof.
  unfold Number.gt0, Number.lt0.
  rewrite !FloatAxioms.ltb_spec, opp_spec, Prim2SF_zero.
  destruct (Prim2SF x) as [s | s | | s m e]; try destruct s; cbn;
    congruence.
Qed.

(** The negation of a negative number is positive. *)
Lemma opp_negative (x : number) :
  Number.lt0 x = true -> Number.gt0 (- x) = true.
Proof.
  unfold Number.gt0, Number.lt0.
  rewrite !FloatAxioms.ltb_spec, opp_spec, Prim2SF_zero.
  destruct (Prim2SF x) as [s | s | | s m e]; try destruct s; cbn;
    congruence.
Qed.

(** A number that is zero or negative is not positive, and its negation
    is not negative. *)
Lemma nonpositive_not_positive (x : number) :
  Number.le0 x = true -> Number.gt0 x = false.
Proof.
  unfold Number.gt0, Number.le0.
  rewrite FloatAxioms.leb_spec, FloatAxioms.ltb_spec, Prim2SF_zero.
  destruct (Prim2SF x) as [s | s | | s m e]; try destruct s; cbn;
    congruence.
Qed.

Lemma opp_nonpositive (x : number) :
  Number.le0 x = true -> Number.lt0 (- x) = false.
Proof.
  unfold Number.lt0, Number.le0.
  rewrite FloatAxioms.leb_spec, FloatAxioms.ltb_spec, opp_spec,
    Prim2SF_zero.
  destruct (Prim2SF x) as [s | s | | s m e]; try destruct s; cbn;
    congruence.
Qed.

End NumberFacts.

(* ===================================================================== *)
(** * Facts about the schemas *)
(* ===================================================================== *)

#[local] Arguments Crypto.format_uuid : simpl never.
#[local] Arguments Number.isNaN : simpl never.
#[local] Arguments Number.StringToNumber : simpl never.
#[local] Arguments Zod.uuid_format : simpl never.
#[local] Arguments String.append : simpl never.
#[local] Arguments Knex.sql_sum : simpl never.

Section SchemaFacts.

Import Zod.

Lemma succeeded_ap {A B} (rf : SafeParse (A -> B)) (ra : SafeParse A) :
  succeeded (ap rf ra) = succeeded rf && succeeded ra.
Proof. now destruct rf, ra. Qed.

Lemma issues_ap {A B} (rf : SafeParse (A -> B)) (ra : SafeParse A) :
  issues_of (ap rf ra) = issues_of rf ++ issues_of ra.
Proof. destruct rf, ra; cbn; now rewrite ?app_nil_r. Qed.

Lemma succeeded_map {A B} (f : A -> B) (r : SafeParse A) :
  succeeded (map_result f r) = succeeded r.
Proof. now destruct r. Qed.

Lemma issues_map {A B} (f : A -> B) (r : SafeParse A) :
  issues_of (map_result f r) = issues_of r.
Proof. now destruct r. Qed.

Lemma failure_issues {A} (r : SafeParse A) :
  succeeded r = false -> r = failure (issues_of r).
Proof. now destruct r. Qed.

(** Each field schema accepts exactly the values its rule describes and
    reports a rejected value at its own path. *)
Lemma string_succeeds (p : list string) (v : value) :
  succeeded (string_ p v) = is_title v /\
  map path (issues_of (string_ p v)) = if is_title v then [] else [p].
Proof. now destruct v. Qed.

Lemma number_succeeds (p : list string) (v : value) :
  succeeded (number_ p v) = is_amount v /\
  map path (issues_of (number_ p v)) = if is_amount v then [] else [p].
Proof.
  destruct v; cbn; auto. now destruct (Number.isNaN n).
Qed.

Lemma type_succeeds (p : list string) (v : value) :
  succeeded (enum ["credit"; "debit"] p v) = is_type v /\
  map path (issues_of (enum ["credit"; "debit"] p v)) =
    if is_type v then [] else [p].
Proof.
  destruct v; cbn; auto. rewrite orb_false_r.
  now destruct (String.eqb s "credit" || String.eqb s "debit").
Qed.

(** A body that meets the schema parses to its three fields. *)
Lemma parse_create_body (body : value) (t : string) (a : number)
  (ty : string) :
  create_body body t a ty ->
  safeParse Routes.createTransactionBodySchema body =
  success {| Routes.title := t; Routes.amount := a; Routes.type := ty |}.
Proof.
  intros [(props & -> & Ht & Ha & Hty) [Hn Hv]].
  unfold safeParse, Routes.createTransactionBodySchema, object, field, get.
  rewrite Ht, Ha, Hty. cbn. rewrite Hn.
  destruct Hv as [-> | ->]; reflexivity.
Qed.

Lemma meets_create_body (body : value) :
  meets_create_schema body = true <->
  exists t a ty, create_body body t a ty.
Proof.
  split.
  - destruct body as [ | | | | | | props]; cbn; try discriminate.
    intros H. apply andb_prop in H as [H Hty].
    apply andb_prop in H as [Ht Ha]. unfold get in *.
    destruct (props !! "title") as [[ | | | | t | | ] | ] eqn:E1;
      try discriminate.
    destruct (props !! "amount") as [[ | | | a | | | ] | ] eqn:E2;
      try discriminate.
    destruct (props !! "type") as [[ | | | | ty | | ] | ] eqn:E3;
      try discriminate.
    exists t, a, ty. cbn in *. repeat split.
    + now exists props.
    + now destruct (Number.isNaN a).
    + apply orb_prop in Hty as [H | H]; apply String.eqb_eq in H; auto.
  - intros (t & a & ty & (props & -> & Ht & Ha & Hty) & Hn & Hv).
    cbn. unfold get. rewrite Ht, Ha, Hty. cbn. rewrite Hn.
    destruct Hv as [-> | ->]; reflexivity.
Qed.

(** A body that breaks the schema yields issues, one per violated
    field when the body is an object. *)
Lemma parse_create_failure (body : value) :
  meets_create_schema body = false ->
  exists issues,
    safeParse Routes.createTransactionBodySchema body = failure issues /\
    issues <> [] /\
    (forall props, body = VObj props ->
       map path issues = map (fun k => [k]) (violated_fields props)).
Proof.
  destruct body as [ | | | | | | props]; intros Hm;
    try (eexists; split; [reflexivity | split; [discriminate | ]];
         intros ? [=]).
  set (r := safeParse Routes.createTransactionBodySchema (VObj props)).
  destruct (string_succeeds ["title"] (get props "title")) as [S1 I1].
  destruct (number_succeeds ["amount"] (get props "amount")) as [S2 I2].
  destruct (type_succeeds ["type"] (get props "type")) as [S3 I3].
  assert (Hs : succeeded r = false).
  { unfold r, safeParse, Routes.createTransactionBodySchema, object, field.
    cbn [app]. rewrite !succeeded_ap, succeeded_map, S1, S2, S3.
    exact Hm. }
  assert (Hp : map path (issues_of r) =
               map (fun k => [k]) (violated_fields props)).
  { unfold r, safeParse, Routes.createTransactionBodySchema, object, field,
      violated_fields.
    cbn [app]. rewrite !issues_ap, issues_map, !map_app, I1, I2, I3.
    now destruct (is_title _), (is_amount _), (is_type _). }
  exists (issues_of r). split; [now apply failure_issues | split].
  - intros Hnil. rewrite Hnil in Hp. cbn [meets_create_schema] in Hm.
    unfold violated_fields in Hp.
    destruct (is_title _), (is_amount _), (is_type _); discriminate.
  - now intros ? [= <-].
Qed.

End SchemaFacts.

(* ===================================================================== *)
(** * What each route does to a request *)
(* ===================================================================== *)

Section Handlers.

Variable request : Request.
Variable w : World.

(** A valid create request: 201, the cookie when a session starts, and
    one more row. *)
Lemma handle_create (t : string) (a : number) (ty : string) :
  route request = POST_root ->
  create_body (body request) t a ty ->
  handle request w =
  (Replied {| response_status := 201;
              response_cookies :=
                if starts_session request
                then [session_cookie (next_uuid w)] else [];
              response_body := NoContent |},
   let row := created_row request w t a ty in
   {| table := table w ++ [row];
      statements :=
        statements w ++
        [Insert (Transaction.id row) t (Transaction.amount row)
                (session_of_create request w)];
      console := console w ++ [log_of request];
      entropy := entropy w;
      drawn := (if starts_session request then 2 else 1) + drawn w;
      now := now w |}).
Proof.
  intros Hr Hb. unfold handle, lifecycle. rewrite Hr.
  cbn [Routes.options preHandler handler run_hooks].
  unfold Routes.createTransaction, parse.
  rewrite (parse_create_body _ _ _ _ Hb).
  unfold created_row, session_of_create, starts_session.
  destruct (cookies request !! "sessionId") as [s | ]; [ | reflexivity].
  now destruct (String.eqb s "").
Qed.

(** A create request that breaks the schema: the exception, and nothing
    but the log line. *)
Lemma handle_create_invalid (issues : list Zod.ZodIssue) :
  route request = POST_root ->
  Zod.safeParse Routes.createTransactionBodySchema (body request) =
    Zod.failure issues ->
  handle request w =
  (Failed (ZodError issues) [], log_line (log_of request) w).
Proof.
  intros Hr Hp. unfold handle, lifecycle. rewrite Hr.
  cbn [Routes.options preHandler handler run_hooks].
  unfold Routes.createTransaction, parse. now rewrite Hp.
Qed.

(** A guarded route without the cookie: the guard replies. *)
Lemma handle_unauthorized :
  is_read (route request) = true ->
  cookies request !! "sessionId" = None ->
  handle request w =
  (Replied {| response_status := 401; response_cookies := [];
              response_body := UnauthorizedBody |},
   log_line (log_of request) w).
Proof.
  intros Hr Hc. unfold handle, lifecycle.
  destruct (route request); try discriminate Hr;
    cbn [Routes.options preHandler handler run_hooks];
    unfold checkSessionIdExists; now rewrite Hc.
Qed.

Lemma matches_session (sessionId : string) (row : Transaction.t) :
  Knex.matches [(col_session_id, sessionId)] row =
  of_session sessionId row.
Proof.
  unfold Knex.matches, Knex.holds, of_session. cbn.
  destruct (Transaction.session_id row) as [s | ];
    rewrite ?andb_true_r.
  - destruct (String.eqb_spec s sessionId) as [-> | Hn].
    + now rewrite bool_decide_eq_true_2.
    + rewrite bool_decide_eq_false_2; congruence.
  - now rewrite bool_decide_eq_false_2.
Qed.

Lemma filter_session (sessionId : string) (rows : list Transaction.t) :
  List.filter (Knex.matches [(col_session_id, sessionId)]) rows =
  rows_of sessionId rows.
Proof. apply List.filter_ext, matches_session. Qed.

Lemma filter_session_id (sessionId id : string)
  (rows : list Transaction.t) :
  List.filter
    (Knex.matches [(col_session_id, sessionId); (col_id, id)]) rows =
  List.filter (fun r => String.eqb (Transaction.id r) id)
              (rows_of sessionId rows).
Proof.
  unfold rows_of. induction rows as [ | row rows IH]; [reflexivity | ].
  cbn [List.filter]. rewrite <- matches_session, IH.
  unfold Knex.matches, Knex.holds. cbn.
  destruct (Transaction.session_id row) as [s | ]; cbn; [ | reflexivity].
  rewrite !andb_true_r.
  destruct (String.eqb s sessionId); cbn; [ | reflexivity].
  now destruct (String.eqb (Transaction.id row) id).
Qed.

(** Listing with a cookie: the rows of the session, in table order. *)
Lemma handle_list (sessionId : string) :
  route request = GET_root ->
  cookies request !! "sessionId" = Some sessionId ->
  handle request w =
  (Replied {| response_status := 200; response_cookies := [];
              response_body :=
                TransactionsBody (rows_of sessionId (table w)) |},
   record (Select [(col_session_id, sessionId)])
     (log_line (log_of request) w)).
Proof.
  intros Hr Hc. unfold handle, lifecycle. rewrite Hr.
  cbn [Routes.options preHandler handler run_hooks].
  unfold checkSessionIdExists, Routes.listTransactions. rewrite Hc.
  cbn. now rewrite filter_session.
Qed.

Lemma parse_id (id : string) :
  route request = GET_id id ->
  Zod.safeParse Routes.getTransactionsParamsSchema
    (string_record (params request)) =
  if Zod.uuid_format id
  then Zod.success {| Routes.id := id |}
  else Zod.failure [{| Zod.code := Zod.invalid_string "uuid";
                       Zod.path := ["id"] |}].
Proof.
  intros Hr. unfold params. rewrite Hr.
  unfold Zod.safeParse, Routes.getTransactionsParamsSchema, Zod.object,
    string_record, Zod.field, get.
  rewrite lookup_fmap, lookup_singleton_eq. cbn.
  now destruct (Zod.uuid_format id).
Qed.

(** Looking a transaction up with a cookie and a well-formed id. *)
Lemma handle_get (sessionId id : string) :
  route request = GET_id id ->
  cookies request !! "sessionId" = Some sessionId ->
  Zod.uuid_format id = true ->
  handle request w =
  (Replied {| response_status := 200; response_cookies := [];
              response_body :=
                TransactionBody (find_row sessionId id (table w)) |},
   record (SelectFirst [(col_session_id, sessionId); (col_id, id)])
     (log_line (log_of request) w)).
Proof.
  intros Hr Hc Hu. unfold handle, lifecycle.
  pose proof (parse_id id Hr) as Hp. rewrite Hu in Hp. rewrite Hr.
  cbn [Routes.options preHandler handler run_hooks].
  unfold checkSessionIdExists, Routes.getTransaction, parse.
  rewrite Hc, Hp. cbn. now rewrite filter_session_id.
Qed.

(** ... and with an id that is not a UUID. *)
Lemma handle_get_invalid (sessionId id : string) :
  route request = GET_id id ->
  cookies request !! "sessionId" = Some sessionId ->
  Zod.uuid_format id = false ->
  handle request w =
  (Failed (ZodError [{| Zod.code := Zod.invalid_string "uuid";
                        Zod.path := ["id"] |}]) [],
   log_line (log_of request) w).
Proof.
  intros Hr Hc Hu. unfold handle, lifecycle.
  pose proof (parse_id id Hr) as Hp. rewrite Hu in Hp. rewrite Hr.
  cbn [Routes.options preHandler handler run_hooks].
  unfold checkSessionIdExists, Routes.getTransaction, parse.
  now rewrite Hc, Hp.
Qed.


(** The aggregate of the store equals the one-pass signed sum. *)
Lemma running_total_fold (sessionId : string) (rows : list Transaction.t) :
  forall total : SQLite.SumCtx,
    running_total total sessionId rows =
    fold_left SQLite.sumStep
      (map Transaction.amount (rows_of sessionId rows)) total.
Proof.
  unfold rows_of.
  induction rows as [ | row rows IH]; intros total; [reflexivity | ].
  cbn [running_total List.filter]. rewrite IH.
  now destruct (of_session sessionId row).
Qed.

Lemma sql_sum_signed_sum (sessionId : string) (rows : list Transaction.t) :
  Knex.sql_sum (map Transaction.amount (rows_of sessionId rows)) =
  signed_sum sessionId rows.
Proof.
  unfold signed_sum, Knex.sql_sum. now rewrite running_total_fold.
Qed.

(** The summary with a cookie. *)
Lemma handle_summary (sessionId : string) :
  route request = GET_summary ->
  cookies request !! "sessionId" = Some sessionId ->
  handle request w =
  (Replied {| response_status := 200; response_cookies := [];
              response_body :=
                SummaryBody
                  (Some {| Summary.amount :=
                             signed_sum sessionId (table w) |}) |},
   record (SelectSumFirst [(col_session_id, sessionId)])
     (log_line (log_of request) w)).
Proof.
  intros Hr Hc. unfold handle, lifecycle. rewrite Hr.
  cbn [Routes.options preHandler handler run_hooks].
  unfold checkSessionIdExists, Routes.getSummary. rewrite Hc.
  cbn. now rewrite filter_session, sql_sum_signed_sum.
Qed.

End Handlers.

(* ===================================================================== *)
(** * Sessions and the rows they own *)
(* ===================================================================== *)

Section Isolation.

(** A generated identifier is never the empty string. *)
Lemma format_uuid_not_empty (bits : N) :
  String.eqb (Crypto.format_uuid bits) "" = false.
Proof. reflexivity. Qed.

Lemma starts_session_cases (request : Request) :
  starts_session request = true <->
  cookies request !! "sessionId" = None \/
  cookies request !! "sessionId" = Some "".
Proof.
  unfold starts_session.
  destruct (cookies request !! "sessionId") as [s | ]; [ | tauto].
  destruct (String.eqb_spec s "") as [-> | Hn]; split; auto;
    try discriminate.
  intros [H | H]; congruence.
Qed.

Lemma keeps_session (request : Request) (w : World) (s : string) :
  cookies request !! "sessionId" = Some s -> s <> "" ->
  starts_session request = false /\ session_of_create request w = s.
Proof.
  intros Hc Hs. unfold session_of_create, starts_session. rewrite Hc.
  apply String.eqb_neq in Hs. now rewrite Hs.
Qed.

(** A create request is never filed under the empty string. *)
Lemma session_of_create_not_empty (request : Request) (w : World) :
  session_of_create request w <> "".
Proof.
  unfold session_of_create, starts_session.
  destruct (cookies request !! "sessionId") as [s | ].
  - destruct (String.eqb_spec s "") as [-> | Hn]; [ | exact Hn].
    apply String.eqb_neq, format_uuid_not_empty.
  - apply String.eqb_neq, format_uuid_not_empty.
Qed.

Lemma rows_of_app (sessionId : string) (l1 l2 : list Transaction.t) :
  rows_of sessionId (l1 ++ l2) = rows_of sessionId l1 ++ rows_of sessionId l2.
Proof. apply List.filter_app. Qed.

Lemma rows_of_session (sessionId : string) (rows : list Transaction.t) :
  forall row, In row (rows_of sessionId rows) ->
              Transaction.session_id row = Some sessionId.
Proof.
  intros row H. apply List.filter_In in H as [_ H].
  now apply bool_decide_eq_true_1 in H.
Qed.

(** A request leaves the rows of a session alone unless it is a create
    filed under that session. *)
Lemma rows_of_other_session (request : Request) (w : World)
  (sessionId : string) :
  (route request = POST_root ->
   session_of_create request w <> sessionId) ->
  rows_of sessionId (table (snd (handle request w))) =
  rows_of sessionId (table w).
Proof.
  intros Hf. destruct (route request) as [ | | id | ] eqn:Hr.
  - destruct (meets_create_schema (body request)) eqn:Hm.
    + apply meets_create_body in Hm as (t & a & ty & Hb).
      rewrite (handle_create request w t a ty Hr Hb).
      cbn [snd table]. rewrite rows_of_app.
      cbn. unfold of_session. cbn.
      rewrite bool_decide_eq_false_2; [apply app_nil_r | ].
      intros [= H]. now apply Hf.
    + apply parse_create_failure in Hm as (issues & Hp & _).
      now rewrite (handle_create_invalid request w issues Hr Hp).
  - destruct (cookies request !! "sessionId") as [s | ] eqn:Hc.
    + now rewrite (handle_list request w s Hr Hc).
    + rewrite handle_unauthorized; auto. now rewrite Hr.
  - destruct (cookies request !! "sessionId") as [s | ] eqn:Hc.
    + destruct (Zod.uuid_format id) eqn:Hu.
      * now rewrite (handle_get request w s id Hr Hc Hu).
      * now rewrite (handle_get_invalid request w s id Hr Hc Hu).
    + rewrite handle_unauthorized; auto. now rewrite Hr.
  - destruct (cookies request !! "sessionId") as [s | ] eqn:Hc.
    + now rewrite (handle_summary request w s Hr Hc).
    + rewrite handle_unauthorized; auto. now rewrite Hr.
Qed.

Lemma signed_sum_rows_of (sessionId : string) (rows : list Transaction.t) :
  signed_sum sessionId rows =
  Knex.sql_sum (map Transaction.amount (rows_of sessionId rows)).
Proof. symmetry. apply sql_sum_signed_sum. Qed.

(** The reply to a guarded request is a function of the rows of its own
    session. *)
Lemma reply_of_own_rows (reader : Request) (w1 w2 : World)
  (sessionId : string) :
  is_read (route reader) = true ->
  cookies reader !! "sessionId" = Some sessionId ->
  rows_of sessionId (table w1) = rows_of sessionId (table w2) ->
  fst (handle reader w1) = fst (handle reader w2).
Proof.
  intros Hread Hc Hrows.
  destruct (route reader) as [ | | id | ] eqn:Hr; try discriminate.
  - rewrite !(handle_list reader _ sessionId Hr Hc). cbn.
    now rewrite Hrows.
  - destruct (Zod.uuid_format id) eqn:Hu.
    + rewrite !(handle_get reader _ sessionId id Hr Hc Hu). cbn.
      unfold find_row. now rewrite Hrows.
    + now rewrite !(handle_get_invalid reader _ sessionId id Hr Hc Hu).
  - rewrite !(handle_summary reader _ sessionId Hr Hc). cbn.
    now rewrite !signed_sum_rows_of, Hrows.
Qed.

Lemma rows_of_run (sessionId : string) (requests : list Request) :
  forall w, foreign_to sessionId requests w ->
            rows_of sessionId (table (run requests w)) =
            rows_of sessionId (table w).
Proof.
  induction requests as [ | request rest IH]; intros w Hf; [reflexivity | ].
  destruct Hf as [Hhead Hrest]. cbn [run fold_left].
  change (fold_left _ rest ?w') with (run rest w').
  rewrite (IH _ Hrest). now apply rows_of_other_session.
Qed.

Lemma shown_in_session (reader : Request) (w : World) (sessionId : string) :
  is_read (route reader) = true ->
  cookies reader !! "sessionId" = Some sessionId ->
  forall row, In row (rows_shown (fst (handle reader w))) ->
              Transaction.session_id row = Some sessionId.
Proof.
  intros Hread Hc row.
  destruct (route reader) as [ | | id | ] eqn:Hr; try discriminate.
  - rewrite (handle_list reader w sessionId Hr Hc). cbn.
    apply rows_of_session.
  - destruct (Zod.uuid_format id) eqn:Hu.
    + rewrite (handle_get reader w sessionId id Hr Hc Hu). cbn.
      unfold find_row.
      destruct (List.filter _ (rows_of sessionId (table w)))
        as [ | r l] eqn:E; cbn; [tauto | ].
      intros [<- | []].
      assert (Hin : In r (r :: l)) by now left.
      rewrite <- E in Hin. apply List.filter_In in Hin as [Hin _].
      now apply rows_of_session in Hin.
    + rewrite (handle_get_invalid reader w sessionId id Hr Hc Hu).
      cbn. tauto.
  - rewrite (handle_summary reader w sessionId Hr Hc). cbn. tauto.
Qed.

Lemma table_after_create (request : Request) (w : World) (t : string)
  (a : number) (ty : string) :
  route request = POST_root ->
  create_body (body request) t a ty ->
  table (snd (handle request w)) = table w ++ [created_row request w t a ty].
Proof.
  intros Hr Hb. now rewrite (handle_create request w t a ty Hr Hb).
Qed.

Lemma rows_of_one (sessionId : string) (row : Transaction.t) :
  Transaction.session_id row = Some sessionId ->
  rows_of sessionId [row] = [row].
Proof.
  intros H. unfold rows_of, of_session. cbn.
  now rewrite bool_decide_eq_true_2.
Qed.

End Isolation.

(* ===================================================================== *)
(** * Generated identifiers *)
(* ===================================================================== *)

(** A property of the sixteen hexadecimal digits holds below 16. *)
Lemma below_16 (P : N -> Prop) :
  (forall d, In d (map N.of_nat (seq 0 16)) -> P d) ->
  forall d, (d < 16)%N -> P d.
Proof.
  intros HP d Hd. apply HP.
  destruct d as [ | p]; [now left | ].
  do 4 (try destruct p as [p | p | ]); cbn; try lia; tauto.
Qed.

Lemma hex_char_is_hex (d : N) :
  (d < 16)%N -> Zod.is_hex (Crypto.hex_char d) = true.
Proof.
  revert d. apply below_16. intros d Hd. cbn in Hd.
  repeat destruct Hd as [<- | Hd]; try reflexivity. destruct Hd.
Qed.

Lemma uuid_digit_bound (bits : N) (i : nat) :
  (Crypto.uuid_digit bits i < 16)%N.
Proof.
  unfold Crypto.uuid_digit.
  destruct (i =? 12)%nat; [reflexivity | ].
  destruct (i =? 16)%nat.
  - change 3%N with (N.ones 2). rewrite N.land_ones.
    pose proof (N.mod_lt (N.land (N.shiftr bits (4 * N.of_nat (31 - i))) 15)
                  (2 ^ 2)) as Hm.
    destruct (_ mod 2 ^ 2)%N as [ | p]; [reflexivity | ].
    do 2 (try destruct p as [p | p | ]); try reflexivity;
      specialize (Hm ltac:(discriminate)); cbn in Hm; lia.
  - change 15%N with (N.ones 4). rewrite N.land_ones. now apply N.mod_lt.
Qed.

(** Whatever the random bits, [randomUUID] yields a string of the UUID
    format, so the ids of stored rows pass the check of [GET /:id]. *)
Lemma generated_uuid_format (bits : N) :
  Zod.uuid_format (Crypto.format_uuid bits) = true.
Proof.
  unfold Zod.uuid_format, Crypto.format_uuid.
  rewrite list_ascii_of_string_of_list_ascii.
  unfold Crypto.hex_run.
  cbn [seq map app Zod.hex_groups take drop forallb length Nat.eqb].
  rewrite !hex_char_is_hex by apply uuid_digit_bound.
  reflexivity.
Qed.

(* ===================================================================== *)
(** * The properties of the specification *)
(* ===================================================================== *)

(** C1. For every valid create request (a title string, an amount number,
    a type among credit and debit) the request is answered 201 and one row
    is appended whose amount is the input amount for a credit and the
    negation of the input amount for a debit; if moreover the input amount
    is positive, the row of a credit holds a value above zero and the row
    of a debit holds the negated input, a value below zero. *)
Theorem create_stores_signed_amount (request : Request) (w : World)
  (t : string) (a : number) (ty : string) :
  route request = POST_root ->
  create_body (body request) t a ty ->
  exists row response,
    fst (handle request w) = Replied response /\
    response_status response = 201 /\
    table (snd (handle request w)) = table w ++ [row] /\
    Transaction.title row = t /\
    (ty = "credit" -> Transaction.amount row = a) /\
    (ty = "debit" -> Transaction.amount row = (- a)%float) /\
    (Number.gt0 a = true ->
     (ty = "credit" -> Number.gt0 (Transaction.amount row) = true) /\
     (ty = "debit" -> Transaction.amount row = (- a)%float /\
                      Number.lt0 (Transaction.amount row) = true)).
Proof.
  intros Hr Hb. rewrite (handle_create request w t a ty Hr Hb).
  eexists _, _. cbn [fst snd table response_status created_row
                     Transaction.title Transaction.amount].
  split_and!; try reflexivity.
  - now intros ->.
  - intros ->. apply times_minus_one.
  - intros Hpos. split_and!; [now intros -> | intros ->; split].
    + apply times_minus_one.
    + cbn. rewrite times_minus_one. now apply opp_positive.
Qed.

Lemma create_stores_signed_amount_witness :
  exists row response,
    fst (handle (post ∅ "D" 2000%float "debit") empty_world) =
      Replied response /\
    response_status response = 201 /\
    table (snd (handle (post ∅ "D" 2000%float "debit") empty_world)) =
      table empty_world ++ [row] /\
    Transaction.title row = "D" /\
    ("debit" = "credit" -> Transaction.amount row = 2000%float) /\
    ("debit" = "debit" -> Transaction.amount row = (- 2000)%float) /\
    (Number.gt0 2000%float = true ->
     ("debit" = "credit" -> Number.gt0 (Transaction.amount row) = true) /\
     ("debit" = "debit" -> Transaction.amount row = (- 2000)%float /\
                           Number.lt0 (Transaction.amount row) = true)).
Proof.
  apply (create_stores_signed_amount
           (post ∅ "D" 2000%float "debit") empty_world
           "D" 2000%float "debit").
  - reflexivity.
  - literal_body.
Defined.



(** C3. Sessions are isolated. Take a reader of one of the three guarded
    routes (list, get by id, summary) with the cookie [sessionId], and any
    run of requests none of whose creates is filed under [sessionId]
    (their session identifiers are distinct from the reader's). Then the
    reader gets the same reply after the run as before it, so nothing the
    other sessions created is visible to it; and every row a reply shows
    carries the reader's own session identifier, because each of the
    three routes filters on [session_id] equal to the cookie. *)
Theorem session_isolation (w : World) (others : list Request)
  (reader : Request) (sessionId : string) :
  is_read (route reader) = true ->
  cookies reader !! "sessionId" = Some sessionId ->
  foreign_to sessionId others w ->
  fst (handle reader (run others w)) = fst (handle reader w) /\
  (forall row,
     In row (rows_shown (fst (handle reader (run others w)))) ->
     Transaction.session_id row = Some sessionId) /\
  (forall row other,
     In row (table (run others w)) ->
     Transaction.session_id row = Some other -> other <> sessionId ->
     ~ In row (rows_shown (fst (handle reader (run others w))))).
Proof.
  intros Hread Hc Hforeign. split_and!.
  - apply (reply_of_own_rows reader _ _ sessionId Hread Hc).
    now apply rows_of_run.
  - now apply shown_in_session.
  - intros row other _ Hother Hne Hin.
    apply (shown_in_session reader _ sessionId Hread Hc) in Hin.
    congruence.
Qed.

Lemma session_isolation_witness :
  let others := [post {[ "sessionId" := "alice" ]} "A" 5000%float "credit";
                 post ∅ "B" 70%float "debit"] in
  let reader := get_with GET_root "/transactions" "bob" in
  fst (handle reader (run others empty_world)) =
    fst (handle reader empty_world) /\
  (forall row,
     In row (rows_shown (fst (handle reader (run others empty_world)))) ->
     Transaction.session_id row = Some "bob") /\
  (forall row other,
     In row (table (run others empty_world)) ->
     Transaction.session_id row = Some other -> other <> "bob" ->
     ~ In row (rows_shown (fst (handle reader (run others empty_world))))).
Proof.
  apply (session_isolation empty_world
           [post {[ "sessionId" := "alice" ]} "A" 5000%float "credit";
            post ∅ "B" 70%float "debit"]
           (get_with GET_root "/transactions" "bob") "bob").
  - reflexivity.
  - reflexivity.
  - cbn [foreign_to]. split_and!; try exact I; intros _; vm_compute;
      discriminate.
Defined.

(** C4, as stated, fails on a cookie that is present but empty: the
    request carries [sessionId=], yet the reply sets a cookie and the row
    is filed under the new identifier, not under the cookie's value. *)
Lemma empty_session_cookie_is_replaced :
  let request := post {[ "sessionId" := "" ]} "T" 5000%float "credit" in
  cookies request !! "sessionId" = Some "" /\
  fst (handle request empty_world) =
    Replied {| response_status := 201;
               response_cookies :=
                 [session_cookie "9e3779b9-7f4a-4c15-b39c-c0605cedc835"];
               response_body := NoContent |} /\
  map Transaction.session_id (table (snd (handle request empty_world))) =
    [Some "9e3779b9-7f4a-4c15-b39c-c0605cedc835"].
Proof. vm_compute. repeat split. Qed.

(** C4, amended. On a valid create request whose [sessionId] cookie is
    absent or empty, the handler generates a new UUID, sets it on the
    reply as the cookie [sessionId] with path "/" and max-age 604800
    seconds, and files the inserted row under it. On a valid create
    request whose cookie is present and not empty, no cookie is set and
    the row is filed under the value of the cookie, unchanged. So a second
    create sent with the cookie the first one received sets no cookie and
    is filed under the same identifier. *)
Theorem create_session_cookie (request : Request) (w : World)
  (t : string) (a : number) (ty : string) :
  route request = POST_root ->
  create_body (body request) t a ty ->
  exists row response,
    fst (handle request w) = Replied response /\
    table (snd (handle request w)) = table w ++ [row] /\
    (cookies request !! "sessionId" = None \/
     cookies request !! "sessionId" = Some "" ->
     response_cookies response =
       [{| cookie_name := "sessionId"; cookie_value := next_uuid w;
           cookie_options := {| path := "/"; maxAge := 604800 |} |}] /\
     Transaction.session_id row = Some (next_uuid w) /\
     forall (second : Request) (t' : string) (a' : number) (ty' : string),
       route second = POST_root ->
       create_body (body second) t' a' ty' ->
       cookies second !! "sessionId" = Some (next_uuid w) ->
       exists row' response',
         fst (handle second (snd (handle request w))) = Replied response' /\
         response_cookies response' = [] /\
         table (snd (handle second (snd (handle request w)))) =
           table (snd (handle request w)) ++ [row'] /\
         Transaction.session_id row' = Some (next_uuid w)) /\
    (forall s, cookies request !! "sessionId" = Some s -> s <> "" ->
               response_cookies response = [] /\
               Transaction.session_id row = Some s).
Proof.
  intros Hr Hb.
  exists (created_row request w t a ty). eexists.
  rewrite (handle_create request w t a ty Hr Hb).
  cbn [fst snd table response_cookies created_row Transaction.session_id].
  split_and!; try reflexivity.
  - intros Hstart. apply starts_session_cases in Hstart.
    unfold session_of_create. rewrite Hstart. split_and!; try reflexivity.
    intros second t' a' ty' Hr' Hb' Hc'.
    set (w1 := {| table := _ |}).
    assert (Hne : next_uuid w <> "").
    { apply String.eqb_neq, format_uuid_not_empty. }
    destruct (keeps_session second w1 _ Hc' Hne) as [Hkeep Hsession].
    exists (created_row second w1 t' a' ty'). eexists.
    rewrite (handle_create second w1 t' a' ty' Hr' Hb'), Hkeep.
    cbn [fst snd table response_cookies created_row Transaction.session_id].
    now rewrite Hsession.
  - intros s Hc Hne.
    destruct (keeps_session request w s Hc Hne) as [Hkeep Hsession].
    now rewrite Hkeep, Hsession.
Qed.

Lemma create_session_cookie_witness :
  exists row response,
    fst (handle (post {[ "sessionId" := "s1" ]} "T" 5000%float "credit")
                empty_world) = Replied response /\
    table (snd (handle (post {[ "sessionId" := "s1" ]} "T" 5000%float
                          "credit") empty_world)) = [row] /\
    response_cookies response = [] /\
    Transaction.session_id row = Some "s1".
Proof.
  destruct (create_session_cookie
              (post {[ "sessionId" := "s1" ]} "T" 5000%float "credit")
              empty_world "T" 5000%float "credit" eq_refl
              ltac:(literal_body))
    as (row & response & H1 & H2 & _ & H4).
  exists row, response.
  destruct (H4 "s1" eq_refl ltac:(discriminate)) as [H5 H6].
  now split_and!.
Defined.

(** C5. A request to one of the three guarded routes ([GET /],
    [GET /:id], [GET /summary]) that carries no [sessionId] cookie is
    answered by the guard with the unauthorized reply (401) before any
    storage access and before the handler runs: the table is unchanged,
    no statement reaches the database and nothing is drawn from the random
    source. The create route is not guarded: without a cookie a valid
    create request is answered 201. *)
Theorem missing_session_is_rejected (request : Request) (w : World) :
  cookies request !! "sessionId" = None ->
  (is_read (route request) = true ->
   fst (handle request w) =
     Replied {| response_status := 401; response_cookies := [];
                response_body := UnauthorizedBody |} /\
   table (snd (handle request w)) = table w /\
   statements (snd (handle request w)) = statements w /\
   drawn (snd (handle request w)) = drawn w) /\
  (route request = POST_root ->
   forall (t : string) (a : number) (ty : string),
     create_body (body request) t a ty ->
     exists response,
       fst (handle request w) = Replied response /\
       response_status response = 201 /\
       length (table (snd (handle request w))) = S (length (table w))).
Proof.
  intros Hc. split.
  - intros Hread. now rewrite (handle_unauthorized request w Hread Hc).
  - intros Hr t a ty Hb. rewrite (handle_create request w t a ty Hr Hb).
    eexists. split_and!; try reflexivity.
    cbn [snd table]. rewrite length_app. cbn. lia.
Qed.

Lemma missing_session_is_rejected_witness :
  let request := {| route := GET_summary; url := "/transactions/summary";
                    cookies := ∅; body := VUndefined |} in
  fst (handle request empty_world) =
    Replied {| response_status := 401; response_cookies := [];
               response_body := UnauthorizedBody |} /\
  table (snd (handle request empty_world)) = table empty_world /\
  statements (snd (handle request empty_world)) = statements empty_world /\
  drawn (snd (handle request empty_world)) = drawn empty_world.
Proof.
  apply (missing_session_is_rejected
           {| route := GET_summary; url := "/transactions/summary";
              cookies := ∅; body := VUndefined |} empty_world).
  - reflexivity.
  - reflexivity.
Defined.

(** C6. A get-by-id request with a session cookie and an id of UUID
    format, for which no row of the table has both that [session_id] and
    that [id], succeeds: it is answered 200 with [{ transaction }] where
    the transaction is missing ([undefined], so absent from the JSON); no
    error is raised and no 404 is sent. *)
Theorem get_missing_row_is_null (request : Request) (w : World)
  (sessionId id : string) :
  route request = GET_id id ->
  cookies request !! "sessionId" = Some sessionId ->
  Zod.uuid_format id = true ->
  (forall row, In row (table w) ->
     ~ (Transaction.session_id row = Some sessionId /\
        Transaction.id row = id)) ->
  fst (handle request w) =
    Replied {| response_status := 200; response_cookies := [];
               response_body := TransactionBody None |}.
Proof.
  intros Hr Hc Hu Hnone.
  rewrite (handle_get request w sessionId id Hr Hc Hu). cbn [fst].
  unfold find_row.
  destruct (List.filter _ (rows_of sessionId (table w))) as [ | row l] eqn:E;
    [reflexivity | exfalso].
  assert (Hin : In row (row :: l)) by now left.
  rewrite <- E in Hin. apply List.filter_In in Hin as [Hin Hid].
  apply String.eqb_eq in Hid.
  apply List.filter_In in Hin as [Hin Hs].
  apply bool_decide_eq_true_1 in Hs. now apply (Hnone row).
Qed.

Lemma get_missing_row_is_null_witness :
  let id := "123e4567-e89b-12d3-a456-426614174000" in
  let w := run [post {[ "sessionId" := "alice" ]} "A" 5000%float "credit"]
               empty_world in
  fst (handle (get_with (GET_id id) ("/transactions/" ++ id) "bob") w) =
    Replied {| response_status := 200; response_cookies := [];
               response_body := TransactionBody None |}.
Proof.
  apply (get_missing_row_is_null
           (get_with (GET_id "123e4567-e89b-12d3-a456-426614174000")
              ("/transactions/" ++ "123e4567-e89b-12d3-a456-426614174000")
              "bob")
           (run [post {[ "sessionId" := "alice" ]} "A" 5000%float "credit"]
                empty_world)
           "bob" "123e4567-e89b-12d3-a456-426614174000").
  - reflexivity.
  - reflexivity.
  - reflexivity.
  - intros row Hin [Hs _]. vm_compute in Hin.
    destruct Hin as [<- | []]. discriminate Hs.
Defined.

(** C7. Round trip. In a session that has no row yet, creating one
    transaction with title "T", amount 5000 and type "credit" and then
    listing with the cookie of that session returns exactly one entry,
    whose title is "T" and whose amount is 5000. *)
Theorem create_then_list (create listing : Request) (w : World)
  (sessionId : string) :
  route create = POST_root ->
  create_body (body create) "T" 5000%float "credit" ->
  session_of_create create w = sessionId ->
  rows_of sessionId (table w) = [] ->
  route listing = GET_root ->
  cookies listing !! "sessionId" = Some sessionId ->
  exists row response,
    fst (handle create w) = Replied response /\
    response_status response = 201 /\
    (starts_session create = true ->
     response_cookies response = [session_cookie sessionId]) /\
    fst (handle listing (snd (handle create w))) =
      Replied {| response_status := 200; response_cookies := [];
                 response_body := TransactionsBody [row] |} /\
    Transaction.title row = "T" /\
    Transaction.amount row = 5000%float.
Proof.
  intros Hr Hb Hs Hfresh Hr' Hc'.
  exists (created_row create w "T" 5000%float "credit"). eexists.
  rewrite (handle_list listing _ sessionId Hr' Hc').
  rewrite (table_after_create create w _ _ _ Hr Hb), rows_of_app, Hfresh.
  rewrite rows_of_one by (cbn; now rewrite Hs).
  rewrite (handle_create create w _ _ _ Hr Hb).
  cbn [fst response_status response_cookies].
  split_and!; try reflexivity.
  intros Hstart. unfold session_of_create in Hs. rewrite Hstart in Hs.
  now rewrite Hstart, Hs.
Qed.

Lemma create_then_list_witness :
  exists row response,
    fst (handle (post ∅ "T" 5000%float "credit") empty_world) =
      Replied response /\
    response_status response = 201 /\
    (starts_session (post ∅ "T" 5000%float "credit") = true ->
     response_cookies response =
       [session_cookie "9e3779b9-7f4a-4c15-b39c-c0605cedc835"]) /\
    fst (handle (get_with GET_root "/transactions"
                   "9e3779b9-7f4a-4c15-b39c-c0605cedc835")
           (snd (handle (post ∅ "T" 5000%float "credit") empty_world))) =
      Replied {| response_status := 200; response_cookies := [];
                 response_body := TransactionsBody [row] |} /\
    Transaction.title row = "T" /\
    Transaction.amount row = 5000%float.
Proof.
  apply (create_then_list (post ∅ "T" 5000%float "credit")
           (get_with GET_root "/transactions"
              "9e3779b9-7f4a-4c15-b39c-c0605cedc835")
           empty_world "9e3779b9-7f4a-4c15-b39c-c0605cedc835").
  - reflexivity.
  - literal_body.
  - vm_compute. reflexivity.
  - reflexivity.
  - reflexivity.
  - reflexivity.
Defined.

(** C8. A create request whose body breaks the create schema (it is not
    an object, the title is not a string, the amount is not a number, for
    instance a string, or the type is neither credit nor debit) is
    aborted with a validation error that lists one issue per violated
    field. This happens before the cookie step and before the insert: no
    cookie is set, nothing is drawn from the random source, no statement
    reaches the database and the table is unchanged. *)
Theorem invalid_create_is_rejected (request : Request) (w : World) :
  route request = POST_root ->
  meets_create_schema (body request) = false ->
  exists issues,
    issues <> [] /\
    (forall props, body request = VObj props ->
       map Zod.path issues = map (fun k => [k]) (violated_fields props)) /\
    fst (handle request w) = Failed (ZodError issues) [] /\
    table (snd (handle request w)) = table w /\
    statements (snd (handle request w)) = statements w /\
    drawn (snd (handle request w)) = drawn w.
Proof.
  intros Hr Hm.
  destruct (parse_create_failure _ Hm) as (issues & Hp & Hne & Hpaths).
  exists issues. rewrite (handle_create_invalid request w issues Hr Hp).
  now split_and!.
Qed.

Lemma invalid_create_is_rejected_witness :
  let request :=
    {| route := POST_root; url := "/transactions"; cookies := ∅;
       body := VObj {[ "title" := VStr "T"; "amount" := VStr "abc";
                       "type" := VStr "credit" ]} |} in
  exists issues,
    map Zod.path issues = [["amount"]] /\
    fst (handle request empty_world) = Failed (ZodError issues) [] /\
    table (snd (handle request empty_world)) = [].
Proof.
  intros request.
  destruct (invalid_create_is_rejected request empty_world)
    as (issues & _ & Hpaths & Hfail & Htable & _);
    [reflexivity | reflexivity | ].
  exists issues. split_and!.
  - exact (Hpaths _ eq_refl).
  - exact Hfail.
  - exact Htable.
Defined.

(* ===================================================================== *)
(** * The environment loader *)
(* ===================================================================== *)

Lemma env_parse (e : gmap string string) :
  (acceptable_env e = true ->
   exists database_url,
     e !! "DATABASE_URL" = Some database_url /\
     Zod.safeParse Env.envSchema (string_record e) =
     Zod.success
       {| Env.NODE_ENV := default "production" (e !! "NODE_ENV");
          Env.DATABASE_URL := database_url;
          Env.DATABASE_CLIENT := default "sqlite" (e !! "DATABASE_CLIENT");
          Env.PORT := from_option Number.StringToNumber 3333%float
                        (e !! "PORT") |}) /\
  (acceptable_env e = false ->
   exists issues,
     issues <> [] /\
     Zod.safeParse Env.envSchema (string_record e) = Zod.failure issues).
Proof.
  unfold Zod.safeParse, Env.envSchema, Zod.object, string_record, Zod.field,
    get, acceptable_env, optional_enum, acceptable_port.
  rewrite !lookup_fmap.
  destruct (e !! "NODE_ENV") as [node_env | ];
    destruct (e !! "DATABASE_URL") as [database_url | ];
    destruct (e !! "DATABASE_CLIENT") as [client | ];
    destruct (e !! "PORT") as [port | ];
    cbn -[existsb Number.isNaN Number.StringToNumber];
    repeat match goal with
           | |- context [existsb (String.eqb ?s) ?l] =>
               tryif is_var s
               then destruct (existsb (String.eqb s) l)
               else (let b := eval vm_compute in (existsb (String.eqb s) l) in
                     change (existsb (String.eqb s) l) with b)
           | |- context [Number.isNaN 3333%float] =>
               change (Number.isNaN 3333%float) with false
           | |- context [Number.isNaN ?x] => destruct (Number.isNaN x)
           end;
    cbn; split; intros H; try discriminate H; eauto;
    eexists; (split; [ | reflexivity]); discriminate.
Qed.

(** C9, as stated, fails on a port that is not an integer: with
    [PORT=3.5] the loader succeeds and exports the port 3.5. *)
Lemma fractional_port_is_accepted :
  Env.load None None
    {[ "DATABASE_URL" := "./db/app.db"; "PORT" := "3.5" ]} =
  Env.env {| Env.NODE_ENV := "production";
             Env.DATABASE_URL := "./db/app.db";
             Env.DATABASE_CLIENT := "sqlite";
             Env.PORT := 3.5%float |} /\
  isInteger (Number.StringToNumber "3.5") = false.
Proof. vm_compute. split; reflexivity. Qed.

(** C9, amended. On the variables as the schema sees them ([process.env]
    completed by the [.env] file, or by [.env.test] under
    [NODE_ENV=test]), the loader succeeds exactly when [DATABASE_URL] is
    set, [NODE_ENV] is absent or one of development, test and production,
    [DATABASE_CLIENT] is absent or one of sqlite and pg, and [PORT] is
    absent or a string whose coercion [Number(PORT)] is not NaN (any
    number, an integer or not). On success it exports the variables, with
    production, sqlite and 3333 for the absent optional ones and
    [Number(PORT)] for a port that is set. Otherwise it throws at once,
    after logging a non-empty list of issues, and exports nothing. *)
Theorem env_loader (dot_env dot_env_test : option (gmap string string))
  (process_env : gmap string string) :
  let e := effective_env dot_env dot_env_test process_env in
  (acceptable_env e = true ->
   exists database_url,
     e !! "DATABASE_URL" = Some database_url /\
     Env.load dot_env dot_env_test process_env =
     Env.env
       {| Env.NODE_ENV := default "production" (e !! "NODE_ENV");
          Env.DATABASE_URL := database_url;
          Env.DATABASE_CLIENT := default "sqlite" (e !! "DATABASE_CLIENT");
          Env.PORT := from_option Number.StringToNumber 3333%float
                        (e !! "PORT") |}) /\
  (acceptable_env e = false ->
   exists issues,
     issues <> [] /\
     Env.load dot_env dot_env_test process_env =
     Env.thrown issues Env.invalid_message).
Proof.
  intros e. unfold Env.load.
  change (if bool_decide (process_env !! "NODE_ENV" = Some "test")
          then Env.config dot_env_test process_env
          else Env.config dot_env process_env) with e.
  destruct (env_parse e) as [Hok Hko]. split.
  - intros H. destruct (Hok H) as (u & Hu & Hp). exists u. now rewrite Hp.
  - intros H. destruct (Hko H) as (issues & Hne & Hp). exists issues.
    now rewrite Hp.
Qed.

Lemma env_loader_witness :
  Env.load None (Some {[ "DATABASE_URL" := "./db/test.db" ]})
    {[ "NODE_ENV" := "test"; "PORT" := "8080" ]} =
  Env.env {| Env.NODE_ENV := "test"; Env.DATABASE_URL := "./db/test.db";
             Env.DATABASE_CLIENT := "sqlite"; Env.PORT := 8080%float |} /\
  exists issues,
    issues <> [] /\
    Env.load None None {[ "PORT" := "abc" ]} =
    Env.thrown issues Env.invalid_message.
Proof.
  split.
  - destruct (proj1 (env_loader None
                       (Some {[ "DATABASE_URL" := "./db/test.db" ]})
                       {[ "NODE_ENV" := "test"; "PORT" := "8080" ]}))
      as (u & Hu & Hload); [reflexivity | ].
    vm_compute in Hu. injection Hu as <-. rewrite Hload.
    vm_compute. reflexivity.
  - apply (proj2 (env_loader None None {[ "PORT" := "abc" ]})).
    reflexivity.
Defined.

(** C10. The create schema puts no sign condition on the amount: for a
    body carrying a title, a type among credit and debit and any finite
    amount (zero and negative amounts included) validation succeeds, the
    request is answered 201 and one row is appended, holding the amount
    as it is for a credit and negated for a debit. For an amount that is
    zero or negative the sign of the row therefore no longer tells the
    type: the row of a credit is not above zero and the row of a debit is
    not below zero; for a negative amount the row of a credit is below
    zero and the row of a debit above. *)
Theorem create_accepts_any_finite_amount (request : Request) (w : World)
  (t : string) (a : number) (ty : string) :
  route request = POST_root ->
  carries (body request) t a ty ->
  Number.isFinite a = true ->
  ty = "credit" \/ ty = "debit" ->
  meets_create_schema (body request) = true /\
  exists row response,
    fst (handle request w) = Replied response /\
    response_status response = 201 /\
    table (snd (handle request w)) = table w ++ [row] /\
    Transaction.amount row =
      (if String.eqb ty "credit" then a else - a)%float /\
    (Number.le0 a = true ->
     (ty = "credit" -> Number.gt0 (Transaction.amount row) = false) /\
     (ty = "debit" -> Number.lt0 (Transaction.amount row) = false)) /\
    (Number.lt0 a = true ->
     (ty = "credit" -> Number.lt0 (Transaction.amount row) = true) /\
     (ty = "debit" -> Number.gt0 (Transaction.amount row) = true)).
Proof.
  intros Hr Hc Hfin Hty.
  assert (Hb : create_body (body request) t a ty).
  { split; [exact Hc | split; [now apply finite_not_NaN | exact Hty]]. }
  split; [apply meets_create_body; eauto | ].
  rewrite (handle_create request w t a ty Hr Hb).
  exists (created_row request w t a ty). eexists.
  cbn [fst snd table response_status created_row Transaction.amount].
  rewrite times_minus_one.
  split_and!; try reflexivity.
  - intros Hle. split; intros ->; cbn.
    + now apply nonpositive_not_positive.
    + now apply opp_nonpositive.
  - intros Hlt. split; intros ->; cbn.
    + exact Hlt.
    + now apply opp_negative.
Qed.

Lemma create_accepts_any_finite_amount_witness :
  meets_create_schema (body (post ∅ "refund" (-5)%float "credit")) = true /\
  exists row response,
    fst (handle (post ∅ "refund" (-5)%float "credit") empty_world) =
      Replied response /\
    response_status response = 201 /\
    table (snd (handle (post ∅ "refund" (-5)%float "credit") empty_world)) =
      table empty_world ++ [row] /\
    Transaction.amount row =
      (if String.eqb "credit" "credit" then -5 else - -5)%float /\
    (Number.le0 (-5)%float = true ->
     ("credit" = "credit" -> Number.gt0 (Transaction.amount row) = false) /\
     ("credit" = "debit" -> Number.lt0 (Transaction.amount row) = false)) /\
    (Number.lt0 (-5)%float = true ->
     ("credit" = "credit" -> Number.lt0 (Transaction.amount row) = true) /\
     ("credit" = "debit" -> Number.gt0 (Transaction.amount row) = true)).
Proof.
  apply (create_accepts_any_finite_amount
           (post ∅ "refund" (-5)%float "credit") empty_world
           "refund" (-5)%float "credit").
  - reflexivity.
  - literal_body.
  - reflexivity.
  - now left.
Defined.

(* ===================================================================== *)
(** * The test suite of the repository, replayed on the model *)
(* ===================================================================== *)

(** "should be able to create a new transaction" *)
Example test_create :
  exists response,
    fst (handle (post ∅ "New transaction" 5000%float "credit") empty_world) =
      Replied response /\
    response_status response = 201.
Proof. eexists. vm_compute. split; reflexivity. Qed.

(** "should be able to get a specific transaction": create, list with the
    cookie of the reply, then get the listed id. *)
Example test_get_specific :
  let created :=
    handle (post ∅ "New transaction" 5000%float "credit") empty_world in
  exists cookie listed,
    fst created =
      Replied {| response_status := 201;
                 response_cookies := [session_cookie cookie];
                 response_body := NoContent |} /\
    fst (handle (get_with GET_root "/transactions" cookie) (snd created)) =
      Replied {| response_status := 200; response_cookies := [];
                 response_body := TransactionsBody [listed] |} /\
    fst (handle (get_with (GET_id (Transaction.id listed))
                   ("/transactions/" ++ Transaction.id listed) cookie)
           (snd created)) =
      Replied {| response_status := 200; response_cookies := [];
                 response_body := TransactionBody (Some listed) |} /\
    Transaction.title listed = "New transaction" /\
    Transaction.amount listed = 5000%float.
Proof. do 2 eexists. vm_compute. repeat split. Qed.

(** A numeric string is not coerced by [z.number()]: it is rejected like
    any other string. *)
Example numeric_string_amount :
  meets_create_schema
    (VObj {[ "title" := VStr "T"; "amount" := VStr "5000";
             "type" := VStr "credit" ]}) = false /\
  Zod.safeParse Routes.createTransactionBodySchema
    (VObj {[ "title" := VStr "T"; "amount" := VStr "5000";
             "type" := VStr "credit" ]}) =
  Zod.failure [{| Zod.code := Zod.invalid_type "number" Zod.t_string;
                  Zod.path := ["amount"] |}].
Proof. vm_compute. split; reflexivity. Qed.

(** The summary is the store's compensated sum, not a plain running
    sum: credits of 0.1, 0.2 and 0.3 sum to 0.6, where adding them up one
    after the other gives 0.6000000000000001. *)
Example summary_of_tenths :
  let tenth := 0x1.999999999999ap-4%float in
  let fifth := 0x1.999999999999ap-3%float in
  let three_tenths := 0x1.3333333333333p-2%float in
  fst (handle (get_with GET_summary "/transactions/summary" "s1")
         (run [post {[ "sessionId" := "s1" ]} "a" tenth "credit";
               post {[ "sessionId" := "s1" ]} "b" fifth "credit";
               post {[ "sessionId" := "s1" ]} "c" three_tenths "credit"]
              empty_world)) =
    ok 200 (SummaryBody
              (Some {| Summary.amount := Some 0x1.3333333333333p-1%float |})) /\
  (0 + tenth + fifth + three_tenths)%float = 0x1.3333333333334p-1%float.
Proof. vm_compute. split; reflexivity. Qed.

(** What a small amount adds to a large one is not lost: a credit of
    1e16, a credit of 1 and a debit of 1e16 leave 1. *)
Example summary_keeps_small_amounts :
  fst (handle (get_with GET_summary "/transactions/summary" "s1")
         (run [post {[ "sessionId" := "s1" ]} "a" 1e16%float "credit";
               post {[ "sessionId" := "s1" ]} "b" 1%float "credit";
               post {[ "sessionId" := "s1" ]} "c" 1e16%float "debit"]
              empty_world)) =
    ok 200 (SummaryBody (Some {| Summary.amount := Some 1%float |})).
Proof. vm_compute. reflexivity. Qed.

(** A session with rows can have a null summary: two credits of 1e308
    overflow the running sum, the total is not a number and the store
    returns NULL. *)
Example summary_of_overflow :
  let huge := 0x1.1ccf385ebc8ap+1023%float in
  fst (handle (get_with GET_summary "/transactions/summary" "s1")
         (run [post {[ "sessionId" := "s1" ]} "a" huge "credit";
               post {[ "sessionId" := "s1" ]} "b" huge "credit"]
              empty_world)) =
    ok 200 (SummaryBody (Some {| Summary.amount := None |})) /\
  length (rows_of "s1"
            (table (run [post {[ "sessionId" := "s1" ]} "a" huge "credit";
                         post {[ "sessionId" := "s1" ]} "b" huge "credit"]
                        empty_world))) = 2.
Proof. vm_compute. split; reflexivity. Qed.

(* ===================================================================== *)
(** * Every way a request can go *)
(* ===================================================================== *)

Lemma handle_spec (request : Request) (w : World) :
  Handled request w (handle request w).
Proof.
  destruct (route request) as [ | | id | ] eqn:Hr.
  - destruct (meets_create_schema (body request)) eqn:Hm.
    + apply meets_create_body in Hm as (t & a & ty & Hb).
      rewrite (handle_create request w t a ty Hr Hb).
      now apply created.
    + destruct (parse_create_failure _ Hm) as (issues & Hp & _).
      rewrite (handle_create_invalid request w issues Hr Hp).
      now apply create_refused.
  - destruct (cookies request !! "sessionId") as [s | ] eqn:Hc.
    + rewrite (handle_list request w s Hr Hc). now apply listed.
    + rewrite handle_unauthorized; [ | now rewrite Hr | exact Hc].
      apply unauthorized; [now rewrite Hr | exact Hc].
  - destruct (cookies request !! "sessionId") as [s | ] eqn:Hc.
    + destruct (Zod.uuid_format id) eqn:Hu.
      * rewrite (handle_get request w s id Hr Hc Hu). now apply looked_up.
      * rewrite (handle_get_invalid request w s id Hr Hc Hu).
        now apply id_refused with s id.
    + rewrite handle_unauthorized; [ | now rewrite Hr | exact Hc].
      apply unauthorized; [now rewrite Hr | exact Hc].
  - destruct (cookies request !! "sessionId") as [s | ] eqn:Hc.
    + rewrite (handle_summary request w s Hr Hc). now apply summed.
    + rewrite handle_unauthorized; [ | now rewrite Hr | exact Hc].
      apply unauthorized; [now rewrite Hr | exact Hc].
Qed.

(** Negation keeps a number a number. *)
Lemma opp_not_NaN (x : number) :
  Number.isNaN x = false -> Number.isNaN (- x)%float = false.
Proof.
  intros Hx. destruct (Number.isNaN (- x)%float) eqn:E; [ | reflexivity].
  apply isNaN_spec in E. rewrite opp_spec in E.
  assert (Hn : Prim2SF x = S754_nan).
  { destruct (Prim2SF x) as [[] | [] | | [] ? ?]; cbn in E; congruence. }
  apply isNaN_spec in Hn. congruence.
Qed.

Lemma created_row_written (request : Request) (w : World) (t : string)
  (a : number) (ty : string) :
  Number.isNaN a = false ->
  written_by_api (created_row request w t a ty).
Proof.
  intros Hn. split_and!.
  - apply generated_uuid_format.
  - cbn. destruct (String.eqb ty "credit"); [exact Hn | ].
    rewrite times_minus_one. now apply opp_not_NaN.
  - exists (session_of_create request w). split; [reflexivity | ].
    apply session_of_create_not_empty.
Qed.

(** X1. A request to one of the three [GET] routes, whatever its cookies
    and its id, leaves the table as it was, draws nothing from the random
    source and sets no cookie. *)
Theorem reads_change_nothing (request : Request) (w : World) :
  is_read (route request) = true ->
  table (snd (handle request w)) = table w /\
  drawn (snd (handle request w)) = drawn w /\
  cookies_of (fst (handle request w)) = [].
Proof.
  intros Hread.
  destruct (handle_spec request w) as
    [t a ty Hr | issues Hr | | s Hr | s id Hr | s id Hr | s Hr];
    try (rewrite Hr in Hread; discriminate Hread); now split_and!.
Qed.

Lemma reads_change_nothing_witness :
  let request := get_with (GET_id "not-a-uuid") "/transactions/not-a-uuid"
                   "alice" in
  let w := run [post {[ "sessionId" := "alice" ]} "A" 5000%float "credit"]
               empty_world in
  table (snd (handle request w)) = table w /\
  drawn (snd (handle request w)) = drawn w /\
  cookies_of (fst (handle request w)) = [].
Proof.
  apply (reads_change_nothing
           (get_with (GET_id "not-a-uuid") "/transactions/not-a-uuid" "alice")
           (run [post {[ "sessionId" := "alice" ]} "A" 5000%float "credit"]
                empty_world)).
  reflexivity.
Defined.

(** One request adds at most one row, and only a row as the create route
    writes them. *)
Lemma handle_appends (request : Request) (w : World) :
  exists new,
    table (snd (handle request w)) = table w ++ new /\
    Forall written_by_api new /\ length new <= 1.
Proof.
  destruct (handle_spec request w) as
    [t a ty Hr [_ [Hn _]] | issues Hr | | s Hr | s id Hr | s id Hr | s Hr];
    try (exists []; cbn; rewrite app_nil_r; split_and!;
         [reflexivity | constructor | lia]).
  exists [created_row request w t a ty]. split_and!.
  - reflexivity.
  - constructor; [now apply created_row_written | constructor].
  - cbn. lia.
Qed.

(** X2. The table only grows. Whatever the requests of a run, the rows
    that were there are still there, unchanged and in the same order,
    followed by new rows, at most one per request; and every new row has
    an id of UUID format, an amount that is not NaN and a session that is
    set and not empty. Nothing is ever updated or deleted. *)
Theorem requests_only_append (requests : list Request) (w : World) :
  exists new,
    table (run requests w) = table w ++ new /\
    Forall written_by_api new /\
    length new <= length requests.
Proof.
  revert w. induction requests as [ | request rest IH]; intros w.
  - exists []. cbn. rewrite app_nil_r.
    split_and!; [reflexivity | constructor | lia].
  - destruct (handle_appends request w) as (new1 & H1 & F1 & L1).
    destruct (IH (snd (handle request w))) as (new2 & H2 & F2 & L2).
    exists (new1 ++ new2). cbn [run fold_left].
    change (fold_left _ rest ?w') with (run rest w').
    rewrite H2, H1, <- app_assoc. split_and!.
    + reflexivity.
    + now apply Forall_app.
    + rewrite length_app. cbn. lia.
Qed.

(** X3. Every request that reaches the hooks of the plugin is logged,
    whatever becomes of it afterwards (turned away by the session guard,
    failing validation, or served): a run of such requests adds to the
    console exactly one line per request, in order, of the form
    [[METHOD url]], and nothing else. *)
Theorem requests_at_the_hooks_are_logged (requests : list Request)
  (w : World) :
  console (run requests w) = console w ++ map log_of requests.
Proof.
  revert w. induction requests as [ | request rest IH]; intros w.
  - cbn. now rewrite app_nil_r.
  - cbn [run fold_left map].
    change (fold_left _ rest ?w') with (run rest w').
    rewrite IH.
    assert (H : console (snd (handle request w)) =
                console w ++ [log_of request]).
    { destruct (handle_spec request w); reflexivity. }
    now rewrite H, <- app_assoc.
Qed.

(** X4. A request sends at most one statement to the database, none when
    it is rejected by the guard or fails validation, and every statement
    it sends is scoped to its session: an insert files the row under the
    session of the create, and every query filters on [session_id] equal
    to the request's cookie. *)
Theorem statements_are_scoped (request : Request) (w : World) :
  exists sent,
    statements (snd (handle request w)) = statements w ++ sent /\
    length sent <= 1 /\
    Forall (scoped request w) sent /\
    (sent = [] <->
     fst (handle request w) = ok 401 UnauthorizedBody \/
     exists issues, fst (handle request w) = Failed (ZodError issues) []).
Proof.
  destruct (handle_spec request w) as
    [t a ty Hr | issues Hr | | s Hr Hc | s id Hr Hc | s id Hr | s Hr Hc].
  - eexists [_]. split_and!; [reflexivity | cbn; lia | | ].
    + constructor; [now split | constructor].
    + cbn. split; [discriminate | ]. intros [Hx | [? Hx]]; discriminate Hx.
  - exists []. cbn. rewrite app_nil_r.
    split_and!; [reflexivity | lia | constructor | ]. split; eauto.
  - exists []. cbn. rewrite app_nil_r.
    split_and!; [reflexivity | lia | constructor | ]. split; eauto.
  - eexists [_]. split_and!; [reflexivity | cbn; lia | | ].
    + constructor; [ | constructor]. exists s. split; [exact Hc | now left].
    + cbn. split; [discriminate | ]. intros [Hx | [? Hx]]; discriminate Hx.
  - eexists [_]. split_and!; [reflexivity | cbn; lia | | ].
    + constructor; [ | constructor]. exists s. split; [exact Hc | now left].
    + cbn. split; [discriminate | ]. intros [Hx | [? Hx]]; discriminate Hx.
  - exists []. cbn. rewrite app_nil_r.
    split_and!; [reflexivity | lia | constructor | ]. split; eauto.
  - eexists [_]. split_and!; [reflexivity | cbn; lia | | ].
    + constructor; [ | constructor]. exists s. split; [exact Hc | now left].
    + cbn. split; [discriminate | ]. intros [Hx | [? Hx]]; discriminate Hx.
Qed.

(** X5. Any request sets at most the one cookie of a new session: a
    cookie is set exactly when a create request with a valid body carries
    no [sessionId] cookie or an empty one, and then it is [sessionId]
    with a value of UUID format, path "/" and max-age 604800. A read, a
    rejected request and a create within an existing session set none. *)
Theorem cookie_only_for_new_session (request : Request) (w : World) :
  cookies_of (fst (handle request w)) =
    (if is_read (route request) then []
     else if meets_create_schema (body request) && starts_session request
          then [session_cookie (next_uuid w)] else []) /\
  Zod.uuid_format (next_uuid w) = true.
Proof.
  split; [ | apply generated_uuid_format].
  destruct (handle_spec request w) as
    [t a ty Hr Hb | issues Hr Hm | Hread | s Hr | s id Hr | s id Hr | s Hr];
    try (now rewrite Hr); try (now rewrite Hread).
  - rewrite Hr. cbn.
    assert (Hm : meets_create_schema (body request) = true).
    { apply meets_create_body. eauto. }
    now rewrite Hm.
  - rewrite Hr. cbn. now rewrite Hm.
Qed.

(* ===================================================================== *)
(** * How the routes compose *)
(* ===================================================================== *)

Lemma find_row_app_new (sessionId id : string) (rows : list Transaction.t)
  (row : Transaction.t) :
  Transaction.session_id row = Some sessionId ->
  Transaction.id row = id ->
  find_row sessionId id (rows ++ [row]) =
  match find_row sessionId id rows with
  | Some older => Some older
  | None => Some row
  end.
Proof.
  intros Hs Hi. unfold find_row.
  rewrite rows_of_app, (rows_of_one _ _ Hs), List.filter_app.
  cbn [List.filter]. rewrite Hi, String.eqb_refl.
  now destruct (List.filter _ (rows_of sessionId rows)).
Qed.

Lemma find_row_found (sessionId id : string) (rows : list Transaction.t)
  (row : Transaction.t) :
  find_row sessionId id rows = Some row ->
  In row rows /\ Transaction.session_id row = Some sessionId /\
  Transaction.id row = id.
Proof.
  unfold find_row. intros H.
  destruct (List.filter _ (rows_of sessionId rows)) as [ | r l] eqn:E;
    [discriminate | ].
  injection H as ->.
  assert (Hin : In row (row :: l)) by now left.
  rewrite <- E in Hin. apply List.filter_In in Hin as [Hin Hid].
  apply String.eqb_eq in Hid. pose proof (rows_of_session _ _ _ Hin) as Hs.
  apply List.filter_In in Hin as [Hin _]. now split_and!.
Qed.

(** X6. Insert then look up. After a valid create, the id of the new row
    passes the check of [GET /:id], and getting that id with the cookie
    of the session is answered 200 with a row of that id and that
    session; it is the new row itself unless the session already held a
    row with the same id. *)
Theorem create_then_get (create getter : Request) (w : World)
  (t : string) (a : number) (ty : string) :
  route create = POST_root ->
  create_body (body create) t a ty ->
  route getter = GET_id (Transaction.id (created_row create w t a ty)) ->
  cookies getter !! "sessionId" = Some (session_of_create create w) ->
  exists found,
    fst (handle getter (snd (handle create w))) =
      ok 200 (TransactionBody (Some found)) /\
    Transaction.id found = Transaction.id (created_row create w t a ty) /\
    Transaction.session_id found = Some (session_of_create create w) /\
    (find_row (session_of_create create w)
       (Transaction.id (created_row create w t a ty)) (table w) = None ->
     found = created_row create w t a ty /\
     Transaction.title found = t).
Proof.
  intros Hr Hb Hr' Hc'.
  set (row := created_row create w t a ty) in *.
  assert (Hu : Zod.uuid_format (Transaction.id row) = true)
    by apply generated_uuid_format.
  rewrite (handle_get getter _ _ _ Hr' Hc' Hu).
  rewrite (table_after_create create w t a ty Hr Hb). fold row.
  rewrite (find_row_app_new _ _ _ row eq_refl eq_refl). cbn [fst].
  destruct (find_row _ _ (table w)) as [older | ] eqn:E.
  - exists older. apply find_row_found in E as (_ & Hs & Hi).
    split_and!; try easy.
  - exists row. now split_and!.
Qed.

Lemma create_then_get_witness :
  let create := post ∅ "T" 5000%float "credit" in
  let row := created_row create empty_world "T" 5000%float "credit" in
  exists found,
    fst (handle (get_with (GET_id (Transaction.id row)) "/transactions/id"
                   (session_of_create create empty_world))
           (snd (handle create empty_world))) =
      ok 200 (TransactionBody (Some found)) /\
    found = row.
Proof.
  intros create row.
  destruct (create_then_get create
              (get_with (GET_id (Transaction.id row)) "/transactions/id"
                 (session_of_create create empty_world))
              empty_world "T" 5000%float "credit")
    as (found & H1 & _ & _ & H4);
    [reflexivity | literal_body | reflexivity | reflexivity | ].
  exists found. split; [exact H1 | ]. now apply H4.
Defined.

(** X7. After a valid create, the list of the session it was filed under
    is the list as it was before with the new row added at the end. *)
Theorem list_after_create (create lister : Request) (w : World)
  (t : string) (a : number) (ty : string) :
  route create = POST_root ->
  create_body (body create) t a ty ->
  route lister = GET_root ->
  cookies lister !! "sessionId" = Some (session_of_create create w) ->
  exists before,
    fst (handle lister w) = ok 200 (TransactionsBody before) /\
    fst (handle lister (snd (handle create w))) =
      ok 200 (TransactionsBody (before ++ [created_row create w t a ty])).
Proof.
  intros Hr Hb Hr' Hc'.
  exists (rows_of (session_of_create create w) (table w)).
  rewrite !(handle_list lister _ _ Hr' Hc').
  rewrite (table_after_create create w t a ty Hr Hb), rows_of_app.
  now rewrite rows_of_one.
Qed.

Lemma list_after_create_witness :
  let create := post {[ "sessionId" := "alice" ]} "B" 70%float "debit" in
  let w := run [post {[ "sessionId" := "alice" ]} "A" 5000%float "credit"]
               empty_world in
  exists before,
    fst (handle (get_with GET_root "/transactions" "alice") w) =
      ok 200 (TransactionsBody before) /\
    fst (handle (get_with GET_root "/transactions" "alice")
           (snd (handle create w))) =
      ok 200 (TransactionsBody
                (before ++ [created_row create w "B" 70%float "debit"])).
Proof.
  intros create w.
  apply (list_after_create create
           (get_with GET_root "/transactions" "alice") w
           "B" 70%float "debit").
  - reflexivity.
  - literal_body.
  - reflexivity.
  - reflexivity.
Defined.





Section Cancelling.

Local Open Scope float_scope.

(** A finite number is a zero or a finite binary64 value. *)
Lemma finite_cases (x : number) :
  Number.isFinite x = true ->
  (exists s, Prim2SF x = S754_zero s) \/
  (exists s m e, Prim2SF x = S754_finite s m e).
Proof.
  unfold Number.isFinite, is_finite, is_nan, is_infinity.
  rewrite !FloatAxioms.eqb_spec, abs_spec.
  change (Prim2SF infinity) with (S754_infinity false).
  destruct (Prim2SF x) as [s | s | | s m e]; cbn; eauto.
  - rewrite orb_true_r. discriminate.
  - discriminate.
Qed.

(** A zero is one of the two zeros. *)
Lemma zero_cases (x : number) (s : bool) :
  Prim2SF x = S754_zero s -> x = 0 \/ x = -0.
Proof.
  intros H. destruct s; [right | left]; apply Prim2SF_inj; now rewrite H.
Qed.

(** The additions and comparisons the store makes while it sums a finite
    value other than zero and its negation: none of them rounds. *)
Variables (x : number) (s : bool) (m : positive) (e : Z).
Hypothesis Hx : Prim2SF x = S754_finite s m e.

Lemma zero_plus : 0 + x = x.
Proof.
  apply Prim2SF_inj. now rewrite add_spec, Prim2SF_zero, Hx.
Qed.

Lemma minus_self : x - x = 0.
Proof.
  apply Prim2SF_inj. rewrite sub_spec, Hx, Prim2SF_zero.
  unfold SF64sub. cbn [SFsub].
  rewrite Z.min_id. unfold shl_align. rewrite Z.sub_diag. cbn [fst].
  rewrite ?Z.sub_diag. reflexivity.
Qed.

Lemma plus_opp : x + - x = 0.
Proof.
  apply Prim2SF_inj. rewrite add_spec, opp_spec, Hx, Prim2SF_zero.
  unfold SF64add. cbn [SFadd SFopp].
  rewrite Z.min_id. unfold shl_align. rewrite Z.sub_diag. cbn [fst].
  destruct s; cbn [cond_Zopp negb]; rewrite ?Z.add_opp_diag_r,
    ?Z.add_opp_diag_l; reflexivity.
Qed.

Lemma opp_plus : - x + x = 0.
Proof.
  apply Prim2SF_inj. rewrite add_spec, opp_spec, Hx, Prim2SF_zero.
  unfold SF64add. cbn [SFadd SFopp].
  rewrite Z.min_id. unfold shl_align. rewrite Z.sub_diag. cbn [fst].
  destruct s; cbn [cond_Zopp negb]; rewrite ?Z.add_opp_diag_r,
    ?Z.add_opp_diag_l; reflexivity.
Qed.

Lemma opp_minus_zero : - x - 0 = - x.
Proof.
  apply Prim2SF_inj. now rewrite sub_spec, opp_spec, Prim2SF_zero, Hx.
Qed.

Lemma abs_not_below_zero : (abs x <? abs 0) = false.
Proof.
  rewrite FloatAxioms.ltb_spec, !abs_spec, Hx, Prim2SF_zero. reflexivity.
Qed.

Lemma abs_opp_not_below : (abs (- x) <? abs x) = false.
Proof.
  rewrite FloatAxioms.ltb_spec, !abs_spec, opp_spec, Hx.
  cbn. unfold SFltb, SFcompare.
  rewrite Z.compare_refl, Pos.compare_refl. reflexivity.
Qed.

End Cancelling.

(** The store's sum of a finite value and its negation is exactly zero:
    both the running sum and the error term end at zero. *)
Lemma sql_sum_cancels (a : number) :
  Number.isFinite a = true -> Knex.sql_sum [a; (- a)%float] = Some 0%float.
Proof.
  intros Hfin.
  destruct (finite_cases a Hfin) as [[s H] | (s & m & e & H)].
  - now destruct (zero_cases a s H) as [-> | ->].
  - unfold Knex.sql_sum, SQLite.sumStep, SQLite.kahanBabuskaNeumaierStep,
      SQLite.sumFinalize.
    cbn [fold_left SQLite.rSum SQLite.rErr SQLite.cnt SQLite.SumCtx_init].
    rewrite (zero_plus a s m e H), (abs_not_below_zero a s m e H),
      (minus_self a s m e H), (abs_opp_not_below a s m e H),
      (plus_opp a s m e H), (opp_minus_zero a s m e H),
      (opp_plus a s m e H).
    reflexivity.
Qed.

(** X10. A credit and a debit of the same finite amount cancel: in a
    session that had no row, after a valid credit of [a] and a valid
    debit of [a] the summary amount is exactly zero, whatever [a]. *)
Theorem credit_and_debit_cancel (credit debit reader : Request) (w : World)
  (t1 t2 : string) (a : number) (sessionId : string) :
  Number.isFinite a = true ->
  route credit = POST_root -> route debit = POST_root ->
  create_body (body credit) t1 a "credit" ->
  create_body (body debit) t2 a "debit" ->
  session_of_create credit w = sessionId ->
  cookies debit !! "sessionId" = Some sessionId ->
  rows_of sessionId (table w) = [] ->
  route reader = GET_summary ->
  cookies reader !! "sessionId" = Some sessionId ->
  fst (handle reader (run [credit; debit] w)) =
    ok 200 (SummaryBody (Some {| Summary.amount := Some 0%float |})).
Proof.
  intros Hfin Hr1 Hr2 Hb1 Hb2 Hs1 Hc2 Hnone Hr Hc.
  assert (Hne : sessionId <> "").
  { rewrite <- Hs1. apply session_of_create_not_empty. }
  rewrite (handle_summary reader _ sessionId Hr Hc).
  cbn [fst run fold_left]. set (w1 := snd (handle credit w)).
  rewrite signed_sum_rows_of, (table_after_create debit w1 _ _ _ Hr2 Hb2).
  unfold w1. rewrite (table_after_create credit w _ _ _ Hr1 Hb1).
  rewrite !rows_of_app, Hnone, !rows_of_one;
    cbn [Transaction.session_id created_row].
  - cbn. rewrite times_minus_one. now rewrite sql_sum_cancels.
  - f_equal. now apply keeps_session.
  - now f_equal.
Qed.

Lemma credit_and_debit_cancel_witness :
  fst (handle (get_with GET_summary "/transactions/summary" "alice")
         (run [post {[ "sessionId" := "alice" ]} "in" 12.5%float "credit";
               post {[ "sessionId" := "alice" ]} "out" 12.5%float "debit"]
              empty_world)) =
    ok 200 (SummaryBody (Some {| Summary.amount := Some 0%float |})).
Proof.
  apply (credit_and_debit_cancel
           (post {[ "sessionId" := "alice" ]} "in" 12.5%float "credit")
           (post {[ "sessionId" := "alice" ]} "out" 12.5%float "debit")
           (get_with GET_summary "/transactions/summary" "alice")
           empty_world "in" "out" 12.5%float "alice").
  - reflexivity.
  - reflexivity.
  - reflexivity.
  - literal_body.
  - literal_body.
  - reflexivity.
  - reflexivity.
  - reflexivity.
  - reflexivity.
  - reflexivity.
Defined.

(* ===================================================================== *)
(** * What a request is read for *)
(* ===================================================================== *)

Lemma parse_same_fields (p1 p2 : gmap string value) :
  same_fields p1 p2 ->
  Zod.safeParse Routes.createTransactionBodySchema (VObj p1) =
  Zod.safeParse Routes.createTransactionBodySchema (VObj p2).
Proof.
  intros (Ht & Ha & Hty).
  unfold Zod.safeParse, Routes.createTransactionBodySchema, Zod.object,
    Zod.field.
  now rewrite Ht, Ha, Hty.
Qed.

Lemma handle_read_for (r1 r2 : Request) (w : World) :
  route r1 = route r2 -> url r1 = url r2 ->
  cookies r1 !! "sessionId" = cookies r2 !! "sessionId" ->
  Zod.safeParse Routes.createTransactionBodySchema (body r1) =
  Zod.safeParse Routes.createTransactionBodySchema (body r2) ->
  handle r1 w = handle r2 w.
Proof.
  destruct r1 as [rt1 u1 c1 b1], r2 as [rt2 u2 c2 b2].
  cbn [route url cookies body]. intros <- <- Hc Hp.
  unfold handle, lifecycle. cbn [route].
  destruct rt1 as [ | | id | ];
    cbn [Routes.options preHandler handler run_hooks];
    unfold checkSessionIdExists, Routes.createTransaction,
      Routes.listTransactions, Routes.getTransaction, Routes.getSummary,
      Routes.logRequest, parse, method, params;
    cbn [route url cookies body]; now rewrite ?Hc, ?Hp.
Qed.

(** X11. The create route reads three properties of the body and nothing
    else: two create requests whose bodies are objects with the same
    [title], [amount] and [type], and which agree on the url and the
    cookies, are handled alike, whatever other properties the bodies
    carry. Extra properties are neither rejected nor stored. *)
Theorem other_body_fields_are_ignored (r1 r2 : Request) (w : World)
  (p1 p2 : gmap string value) :
  route r1 = POST_root -> route r2 = POST_root ->
  url r1 = url r2 -> cookies r1 = cookies r2 ->
  body r1 = VObj p1 -> body r2 = VObj p2 ->
  same_fields p1 p2 ->
  handle r1 w = handle r2 w.
Proof.
  intros Hr1 Hr2 Hu Hc Hb1 Hb2 Hsame.
  apply handle_read_for; [congruence | exact Hu | now rewrite Hc | ].
  rewrite Hb1, Hb2. now apply parse_same_fields.
Qed.

Lemma other_body_fields_are_ignored_witness :
  handle {| route := POST_root; url := "/transactions"; cookies := ∅;
            body := VObj {[ "title" := VStr "T"; "amount" := VNum 5000%float;
                            "type" := VStr "credit";
                            "session_id" := VStr "alice";
                            "id" := VNum 7%float ]} |} empty_world =
  handle (post ∅ "T" 5000%float "credit") empty_world.
Proof.
  eapply (other_body_fields_are_ignored
            {| route := POST_root; url := "/transactions"; cookies := ∅;
               body := VObj {[ "title" := VStr "T"; "amount" := VNum 5000%float;
                               "type" := VStr "credit";
                               "session_id" := VStr "alice";
                               "id" := VNum 7%float ]} |}
            (post ∅ "T" 5000%float "credit") empty_world).
  - reflexivity.
  - reflexivity.
  - reflexivity.
  - reflexivity.
  - reflexivity.
  - reflexivity.
  - split_and!; reflexivity.
Defined.

(** X12. Of the cookies only [sessionId] is read: two requests that agree
    on the route, the url, the body and the [sessionId] cookie are handled
    alike, whatever other cookies they carry. *)
Theorem other_cookies_are_ignored (r1 r2 : Request) (w : World) :
  route r1 = route r2 -> url r1 = url r2 -> body r1 = body r2 ->
  cookies r1 !! "sessionId" = cookies r2 !! "sessionId" ->
  handle r1 w = handle r2 w.
Proof.
  intros Hr Hu Hb Hc. apply handle_read_for; try assumption.
  now rewrite Hb.
Qed.

Lemma other_cookies_are_ignored_witness :
  handle {| route := GET_root; url := "/transactions";
            cookies := {[ "sessionId" := "alice"; "theme" := "dark" ]};
            body := VUndefined |} empty_world =
  handle (get_with GET_root "/transactions" "alice") empty_world.
Proof.
  apply (other_cookies_are_ignored
           {| route := GET_root; url := "/transactions";
              cookies := {[ "sessionId" := "alice"; "theme" := "dark" ]};
              body := VUndefined |}
           (get_with GET_root "/transactions" "alice") empty_world);
    reflexivity.
Defined.

(* ===================================================================== *)
(** * Requests that are turned away *)
(* ===================================================================== *)

(** X13. With a session cookie, a get-by-id request whose id is not of
    UUID format fails validation with the one issue [uuid] at [id], before
    the database is asked anything: no statement is sent and the table is
    unchanged. *)
Theorem malformed_id_is_rejected (request : Request) (w : World)
  (sessionId id : string) :
  route request = GET_id id ->
  cookies request !! "sessionId" = Some sessionId ->
  Zod.uuid_format id = false ->
  fst (handle request w) = Failed (ZodError [uuid_issue]) [] /\
  statements (snd (handle request w)) = statements w /\
  table (snd (handle request w)) = table w.
Proof.
  intros Hr Hc Hu.
  now rewrite (handle_get_invalid request w sessionId id Hr Hc Hu).
Qed.

Lemma malformed_id_is_rejected_witness :
  let request := get_with (GET_id "not-a-uuid") "/transactions/not-a-uuid"
                   "alice" in
  fst (handle request empty_world) = Failed (ZodError [uuid_issue]) [] /\
  statements (snd (handle request empty_world)) = statements empty_world /\
  table (snd (handle request empty_world)) = table empty_world.
Proof.
  apply (malformed_id_is_rejected
           (get_with (GET_id "not-a-uuid") "/transactions/not-a-uuid"
              "alice")
           empty_world "alice" "not-a-uuid");
    reflexivity.
Defined.

(** X14. A create request whose body is not an object (a missing body,
    [null], an array, a string, a number) fails validation with a single
    issue at the root of the body, which expected an object and names
    what it received; nothing is inserted. *)
Theorem non_object_body_is_rejected (request : Request) (w : World) :
  route request = POST_root ->
  (forall props, body request <> VObj props) ->
  fst (handle request w) =
    Failed (ZodError
              [{| Zod.code :=
                    Zod.invalid_type "object"
                      (Zod.getParsedType (body request));
                  Zod.path := [] |}]) [] /\
  table (snd (handle request w)) = table w /\
  statements (snd (handle request w)) = statements w.
Proof.
  intros Hr Hb.
  rewrite (handle_create_invalid request w
             [{| Zod.code :=
                   Zod.invalid_type "object"
                     (Zod.getParsedType (body request));
                 Zod.path := [] |}] Hr).
  - now split_and!.
  - destruct (body request) as [ | | | | | | props]; try reflexivity.
    now destruct (Hb props).
Qed.

Lemma non_object_body_is_rejected_witness :
  let request := {| route := POST_root; url := "/transactions";
                    cookies := ∅; body := VUndefined |} in
  fst (handle request empty_world) =
    Failed (ZodError
              [{| Zod.code := Zod.invalid_type "object" Zod.t_undefined;
                  Zod.path := [] |}]) [] /\
  table (snd (handle request empty_world)) = table empty_world /\
  statements (snd (handle request empty_world)) = statements empty_world.
Proof.
  apply (non_object_body_is_rejected
           {| route := POST_root; url := "/transactions";
              cookies := ∅; body := VUndefined |} empty_world).
  - reflexivity.
  - discriminate.
Defined.

Lemma rows_of_with_session (sessionId : string)
  (rows : list Transaction.t) :
  rows_of sessionId (List.filter has_session rows) = rows_of sessionId rows.
Proof.
  unfold rows_of. induction rows as [ | row rows IH]; [reflexivity | ].
  cbn [List.filter].
  destruct (has_session row) eqn:Hh, (of_session sessionId row) eqn:Ho;
    cbn [List.filter]; rewrite ?Ho, ?IH; try reflexivity.
  unfold of_session in Ho. apply bool_decide_eq_true_1 in Ho.
  unfold has_session in Hh. now rewrite Ho in Hh.
Qed.

(** X15. Rows that predate the [session_id] column hold NULL there and
    belong to no session: no cookie makes any of the three [GET] routes
    show such a row or count it in a summary. Every reply is the same as
    if those rows were not in the table. *)
Theorem null_session_rows_are_invisible (request : Request) (w : World) :
  is_read (route request) = true ->
  fst (handle request w) =
    fst (handle request
           (with_table (List.filter has_session (table w)) w)) /\
  (forall row, In row (rows_shown (fst (handle request w))) ->
               Transaction.session_id row <> None).
Proof.
  intros Hread.
  destruct (cookies request !! "sessionId") as [s | ] eqn:Hc.
  - split.
    + apply (reply_of_own_rows request _ _ s Hread Hc).
      cbn [with_table table]. symmetry. apply rows_of_with_session.
    + intros row Hin.
      rewrite (shown_in_session request w s Hread Hc row Hin).
      discriminate.
  - rewrite !(handle_unauthorized request _ Hread Hc). split; [reflexivity | ].
    cbn. tauto.
Qed.

Lemma null_session_rows_are_invisible_witness :
  let legacy := {| Transaction.id := "1"; Transaction.title := "old";
                   Transaction.amount := 10%float;
                   Transaction.created_at := "2023-01-01 00:00:00";
                   Transaction.session_id := None |} in
  let request := get_with GET_summary "/transactions/summary" "alice" in
  fst (handle request (with_table [legacy] empty_world)) =
  fst (handle request empty_world).
Proof.
  intros legacy request.
  apply (proj1 (null_session_rows_are_invisible request
                  (with_table [legacy] empty_world) eq_refl)).
Defined.

(* ===================================================================== *)
(** * The environment and the storage handle *)
(* ===================================================================== *)

Lemma env_parse_issues (e : gmap string string) :
  match Zod.safeParse Env.envSchema (string_record e) with
  | Zod.failure issues =>
      map Zod.path issues = map (fun k => [k]) (invalid_variables e) /\
      invalid_variables e <> []
  | Zod.success _ => invalid_variables e = []
  end.
Proof.
  unfold Zod.safeParse, Env.envSchema, Zod.object, string_record, Zod.field,
    get, invalid_variables, optional_enum, acceptable_port.
  rewrite !lookup_fmap.
  destruct (e !! "NODE_ENV") as [node_env | ];
    destruct (e !! "DATABASE_URL") as [database_url | ];
    destruct (e !! "DATABASE_CLIENT") as [client | ];
    destruct (e !! "PORT") as [port | ];
    cbn -[existsb Number.isNaN Number.StringToNumber];
    repeat match goal with
           | |- context [existsb (String.eqb ?s) ?l] =>
               tryif is_var s
               then destruct (existsb (String.eqb s) l)
               else (let b := eval vm_compute in (existsb (String.eqb s) l) in
                     change (existsb (String.eqb s) l) with b)
           | |- context [Number.isNaN 3333%float] =>
               change (Number.isNaN 3333%float) with false
           | |- context [Number.isNaN ?x] => destruct (Number.isNaN x)
           end;
    cbn; try reflexivity; split; (reflexivity || discriminate).
Qed.

Lemma existsb_eqb_In (s : string) (options : list string) :
  existsb (String.eqb s) options = true -> In s options.
Proof.
  intros H. apply existsb_exists in H as (o & Hin & Heq).
  apply String.eqb_eq in Heq. now subst.
Qed.

Lemma optional_enum_default (options : list string) (v : option string)
  (d : string) :
  optional_enum options v = true -> In d options ->
  In (default d v) options.
Proof.
  destruct v as [s | ]; cbn; [ | tauto].
  intros H _. now apply existsb_eqb_In.
Qed.

(** What an exported environment tells about the variables it was read
    from. *)
Lemma load_inversion (dot_env dot_env_test : option (gmap string string))
  (process_env : gmap string string) (data : Env.t) :
  Env.load dot_env dot_env_test process_env = Env.env data ->
  let e := effective_env dot_env dot_env_test process_env in
  acceptable_env e = true /\
  e !! "DATABASE_URL" = Some (Env.DATABASE_URL data) /\
  Env.NODE_ENV data = default "production" (e !! "NODE_ENV") /\
  Env.DATABASE_CLIENT data = default "sqlite" (e !! "DATABASE_CLIENT") /\
  Env.PORT data =
    from_option Number.StringToNumber 3333%float (e !! "PORT").
Proof.
  intros Hload e. unfold Env.load in Hload.
  change (if bool_decide (process_env !! "NODE_ENV" = Some "test")
          then Env.config dot_env_test process_env
          else Env.config dot_env process_env) with e in Hload.
  destruct (env_parse e) as [Hok Hko].
  destruct (acceptable_env e) eqn:Ha.
  - destruct (Hok eq_refl) as (u & Hu & Hp). rewrite Hp in Hload.
    injection Hload as <-. now split_and!.
  - destruct (Hko eq_refl) as (issues & _ & Hp). rewrite Hp in Hload.
    discriminate Hload.
Qed.

(** X16. When the loader refuses the environment, the issues it logs
    before throwing name exactly the variables that break the schema, one
    issue each, in the order of the schema; when it accepts, no variable
    breaks the schema. A first invalid variable does not hide the next. *)
Theorem env_issues_name_invalid_variables
  (dot_env dot_env_test : option (gmap string string))
  (process_env : gmap string string) :
  let e := effective_env dot_env dot_env_test process_env in
  match Env.load dot_env dot_env_test process_env with
  | Env.thrown issues message =>
      map Zod.path issues = map (fun k => [k]) (invalid_variables e) /\
      invalid_variables e <> [] /\
      message = Env.invalid_message
  | Env.env _ => invalid_variables e = []
  end.
Proof.
  intros e. unfold Env.load.
  change (if bool_decide (process_env !! "NODE_ENV" = Some "test")
          then Env.config dot_env_test process_env
          else Env.config dot_env process_env) with e.
  pose proof (env_parse_issues e) as H.
  destruct (Zod.safeParse Env.envSchema (string_record e)); [ | exact H].
  now split_and!.
Qed.

(** X17. An environment the loader exports always meets the schema:
    [NODE_ENV] is one of development, test and production,
    [DATABASE_CLIENT] is one of sqlite and pg, [PORT] is a number and not
    NaN, and [DATABASE_URL] is the string that was set. *)
Theorem exported_env_is_well_formed
  (dot_env dot_env_test : option (gmap string string))
  (process_env : gmap string string) (data : Env.t) :
  Env.load dot_env dot_env_test process_env = Env.env data ->
  In (Env.NODE_ENV data) ["development"; "test"; "production"] /\
  In (Env.DATABASE_CLIENT data) ["sqlite"; "pg"] /\
  Number.isNaN (Env.PORT data) = false /\
  effective_env dot_env dot_env_test process_env !! "DATABASE_URL" =
    Some (Env.DATABASE_URL data).
Proof.
  intros Hload.
  destruct (load_inversion _ _ _ _ Hload) as (Ha & Hu & Hn & Hc & Hp).
  unfold acceptable_env in Ha.
  apply andb_prop in Ha as [Ha Hport]. apply andb_prop in Ha as [Ha Hclient].
  apply andb_prop in Ha as [Hnode _].
  rewrite Hn, Hc, Hp. split_and!.
  - apply optional_enum_default; [exact Hnode | cbn; tauto].
  - apply optional_enum_default; [exact Hclient | cbn; tauto].
  - destruct (_ !! "PORT") as [p | ]; cbn in *; [ | reflexivity].
    now destruct (Number.isNaN (Number.StringToNumber p)).
  - exact Hu.
Qed.

Lemma exported_env_is_well_formed_witness :
  let data := {| Env.NODE_ENV := "test"; Env.DATABASE_URL := "./db/test.db";
                 Env.DATABASE_CLIENT := "sqlite"; Env.PORT := 8080%float |} in
  In (Env.NODE_ENV data) ["development"; "test"; "production"] /\
  In (Env.DATABASE_CLIENT data) ["sqlite"; "pg"] /\
  Number.isNaN (Env.PORT data) = false /\
  effective_env None (Some {[ "DATABASE_URL" := "./db/test.db" ]})
    {[ "NODE_ENV" := "test"; "PORT" := "8080" ]} !! "DATABASE_URL" =
    Some (Env.DATABASE_URL data).
Proof.
  intros data.
  apply (exported_env_is_well_formed None
           (Some {[ "DATABASE_URL" := "./db/test.db" ]})
           {[ "NODE_ENV" := "test"; "PORT" := "8080" ]} data).
  vm_compute. reflexivity.
Defined.

(** X18. The storage handle built from an exported environment connects
    either to SQLite, with [DATABASE_URL] as the file name, or to
    Postgres, with [DATABASE_URL] as the connection string; no other
    client reaches Knex, and SQLite it is when [DATABASE_CLIENT] is not
    set. *)
Theorem config_connects_by_client
  (dot_env dot_env_test : option (gmap string string))
  (process_env : gmap string string) (data : Env.t) :
  Env.load dot_env dot_env_test process_env = Env.env data ->
  let url := Env.DATABASE_URL data in
  let c := Database.config data in
  (Database.client c = "sqlite" /\
   Database.connection c = Database.Filename url \/
   Database.client c = "pg" /\
   Database.connection c = Database.ConnectionString url) /\
  (effective_env dot_env dot_env_test process_env !! "DATABASE_CLIENT"
     = None ->
   Database.client c = "sqlite" /\
   Database.connection c = Database.Filename url).
Proof.
  intros Hload url c.
  destruct (load_inversion _ _ _ _ Hload) as (Ha & _ & _ & Hc & _).
  unfold acceptable_env in Ha.
  apply andb_prop in Ha as [Ha _]. apply andb_prop in Ha as [_ Hclient].
  unfold c, Database.config. cbn [Database.client Database.connection].
  rewrite Hc.
  destruct (_ !! "DATABASE_CLIENT") as [cl | ]; cbn in *.
  - split; [ | discriminate].
    rewrite orb_false_r in Hclient.
    apply orb_prop in Hclient as [H | H]; apply String.eqb_eq in H;
      subst cl; cbn; auto.
  - split; [left | intros _]; now split.
Qed.

Lemma config_connects_by_client_witness :
  let data := {| Env.NODE_ENV := "production";
                 Env.DATABASE_URL := "postgres://db/ledger";
                 Env.DATABASE_CLIENT := "pg"; Env.PORT := 3333%float |} in
  Database.client (Database.config data) = "pg" /\
  Database.connection (Database.config data) =
    Database.ConnectionString "postgres://db/ledger".
Proof.
  intros data.
  destruct (config_connects_by_client None None
              {[ "DATABASE_URL" := "postgres://db/ledger";
                 "DATABASE_CLIENT" := "pg" ]} data)
    as [[[H _] | H] _].
  - vm_compute. reflexivity.
  - discriminate H.
  - exact H.
Defined.

(** X19. Which file the loader reads is decided by [NODE_ENV] in
    [process.env] alone: under [NODE_ENV=test] the [.env] file has no
    influence on the outcome, otherwise the [.env.test] file has none (a
    [NODE_ENV=test] written in [.env] does not bring it in). And a
    variable set in [process.env] is never replaced by the file. *)
Theorem file_is_chosen_by_process_env
  (dot_env dot_env_test : option (gmap string string))
  (process_env : gmap string string) :
  (process_env !! "NODE_ENV" = Some "test" ->
   forall other, Env.load dot_env dot_env_test process_env =
                 Env.load other dot_env_test process_env) /\
  (process_env !! "NODE_ENV" <> Some "test" ->
   forall other, Env.load dot_env dot_env_test process_env =
                 Env.load dot_env other process_env) /\
  (forall key v,
     process_env !! key = Some v ->
     effective_env dot_env dot_env_test process_env !! key = Some v).
Proof.
  split_and!.
  - intros H other. unfold Env.load.
    now rewrite !bool_decide_eq_true_2 by exact H.
  - intros H other. unfold Env.load.
    now rewrite !bool_decide_eq_false_2 by exact H.
  - intros key v H. unfold effective_env, Env.config.
    destruct (bool_decide _); now apply lookup_union_Some_l.
Qed.

Lemma file_is_chosen_by_process_env_witness :
  Env.load (Some {[ "NODE_ENV" := "test"; "DATABASE_URL" := "./db/app.db" ]})
    (Some {[ "DATABASE_URL" := "./db/test.db" ]}) ∅ =
  Env.load (Some {[ "NODE_ENV" := "test"; "DATABASE_URL" := "./db/app.db" ]})
    None ∅.
Proof.
  apply (proj1 (proj2 (file_is_chosen_by_process_env
                         (Some {[ "NODE_ENV" := "test";
                                  "DATABASE_URL" := "./db/app.db" ]})
                         (Some {[ "DATABASE_URL" := "./db/test.db" ]}) ∅))).
  discriminate.
Defined.

(** The cookie a client holds after a request: the one the reply set, or
    else the one it sent. *)
Lemma cookie_after_create (create : Request) (w : World) (t : string)
  (a : number) (ty : string) :
  route create = POST_root ->
  create_body (body create) t a ty ->
  match cookies_of (fst (handle create w)) with
  | c :: _ => Some (cookie_value c)
  | [] => cookies create !! "sessionId"
  end = Some (session_of_create create w).
Proof.
  intros Hr Hb. rewrite (handle_create create w t a ty Hr Hb).
  cbn [fst cookies_of response_cookies].
  unfold session_of_create, starts_session.
  destruct (cookies create !! "sessionId") as [s | ]; [ | reflexivity].
  now destruct (String.eqb s "").
Qed.

(** X20. A client always finds what it created. After a valid create,
    whether the reply set a cookie or not, a client that keeps the cookie
    of the reply, or the cookie it sent when the reply set none, and
    lists its transactions gets a list that ends with the row just
    created. *)
Theorem client_finds_its_row (create lister : Request) (w : World)
  (t : string) (a : number) (ty : string) :
  route create = POST_root ->
  create_body (body create) t a ty ->
  route lister = GET_root ->
  cookies lister !! "sessionId" =
    match cookies_of (fst (handle create w)) with
    | c :: _ => Some (cookie_value c)
    | [] => cookies create !! "sessionId"
    end ->
  exists earlier row,
    fst (handle lister (snd (handle create w))) =
      ok 200 (TransactionsBody (earlier ++ [row])) /\
    Transaction.title row = t /\
    Transaction.amount row =
      (if String.eqb ty "credit" then a else - a)%float.
Proof.
  intros Hr Hb Hr' Hc'.
  rewrite (cookie_after_create create w t a ty Hr Hb) in Hc'.
  exists (rows_of (session_of_create create w) (table w)),
    (created_row create w t a ty).
  rewrite (handle_list lister _ _ Hr' Hc').
  rewrite (table_after_create create w t a ty Hr Hb), rows_of_app.
  rewrite rows_of_one by reflexivity.
  cbn [created_row Transaction.title Transaction.amount].
  now rewrite times_minus_one.
Qed.

Lemma client_finds_its_row_witness :
  let create := post ∅ "D" 2000%float "debit" in
  exists earlier row,
    fst (handle (get_with GET_root "/transactions"
                   "9e3779b9-7f4a-4c15-b39c-c0605cedc835")
           (snd (handle create empty_world))) =
      ok 200 (TransactionsBody (earlier ++ [row])) /\
    Transaction.title row = "D" /\
    Transaction.amount row =
      (if String.eqb "debit" "credit" then 2000 else - 2000)%float.
Proof.
  intros create.
  apply (client_finds_its_row create
           (get_with GET_root "/transactions"
              "9e3779b9-7f4a-4c15-b39c-c0605cedc835")
           empty_world "D" 2000%float "debit").
  - reflexivity.
  - literal_body.
  - reflexivity.
  - vm_compute. reflexivity.
Defined.
